(** * PersonalExpenseTracker: record model, persistence gateway and ledger

    A shallow embedding of [src/Test Case 1/expenseTracker3.py] (module
    [Tracker3]) and of [src/expenseTrackerFinal.py] (module [Final]),
    together with the Python builtins both rely on (module [Py]).

    Conventions.
    - A Python [str] is a Rocq [string] read as a sequence of code points
      in the Latin-1 range 0..255; the character classes below follow
      Python's tables on that range.
    - A Python [float] is an IEEE-754 binary64 value, modelled by
      [spec_float] with precision 53 and [emax = 1024]; arithmetic is the
      correctly rounded one of [SpecFloat] (round to nearest, ties to even).
    - Python's [None] in a field that may hold a [str] is [None : option
      string].
    - Exceptions are values of [Py.exn]; a call that may raise returns a
      [Py.result].
    - Console output is not a value of the program; where a claim speaks of
      what an operation "returns", the function of the model returns what
      the source prints or binds at that point. *)

From Stdlib Require Import ZArith NArith Bool List Ascii String Lia SpecFloat.
From Stdlib Require Import Sorted.
From stdpp Require Import base option list strings gmap.

Local Open Scope string_scope.
Local Open Scope list_scope.
Local Open Scope Z_scope.

(* ================================================================== *)
(** * Python builtins                                                  *)
(* ================================================================== *)

Module Py.

(** ** Exceptions and results *)

Inductive exn : Type :=
| ValueError
| TypeError
| AttributeError
| IndexError
| OverflowError
| EOFError
| OSError.

Inductive result (A : Type) : Type :=
| Ok (a : A)
| Raise (e : exn).
Arguments Ok {A} a.
Arguments Raise {A} e.

Definition bind {A B} (r : result A) (k : A -> result B) : result B :=
  match r with
  | Ok a => k a
  | Raise e => Raise e
  end.

Notation "'let*' x ':=' r 'in' k" := (bind r (fun x => k))
  (at level 10, x name, r at level 100, k at level 200).

(** ** Characters (Latin-1 code points) *)

Definition code (c : ascii) : N := N_of_ascii c.

(** [str.isspace] on one character: TAB..CR, FS..US, SPACE, NEL, NBSP. *)
Definition is_space (c : ascii) : bool :=
  let n := code c in
  ((9 <=? n) && (n <=? 13) || (28 <=? n) && (n <=? 32)
   || (n =? 133) || (n =? 160))%N.

(** The whitespace [int] and [float] skip around a numeral: as [isspace]
    but without FS..US. *)
Definition is_num_space (c : ascii) : bool :=
  let n := code c in
  ((9 <=? n) && (n <=? 13) || (n =? 32) || (n =? 133) || (n =? 160))%N.

(** A decimal digit (Unicode category Nd): the only ones below 256 are
    ['0'..'9']. These are the digits [int] and [float] accept. *)
Definition is_decimal (c : ascii) : bool :=
  let n := code c in ((48 <=? n) && (n <=? 57))%N.

(** [str.isdigit] on one character: decimal digits and the superscripts
    U+00B2, U+00B3 and U+00B9 (Numeric_Type=Digit). *)
Definition is_digit (c : ascii) : bool :=
  let n := code c in
  (is_decimal c || (n =? 178) || (n =? 179) || (n =? 185))%N.

Definition digit_val (c : ascii) : Z := Z.of_N (code c) - 48.

Definition digit_char (d : Z) : ascii := ascii_of_N (Z.to_N (d + 48)).

(** [str.lower] on one character: A..Z and U+00C0..U+00DE except U+00D7. *)
Definition lower_char (c : ascii) : ascii :=
  let n := code c in
  if ((65 <=? n) && (n <=? 90)
      || (192 <=? n) && (n <=? 222) && negb (n =? 215))%N
  then ascii_of_N (n + 32) else c.

(** ** Strings *)

Definition chars (s : string) : list ascii := list_ascii_of_string s.
Definition str (l : list ascii) : string := string_of_list_ascii l.

Definition len (s : string) : Z := Z.of_nat (String.length s).

(** Truth value of a [str]: non-empty. *)
Definition truthy (s : string) : bool :=
  match s with EmptyString => false | _ => true end.

(** [a or b] on strings. *)
Definition str_or (a b : string) : string := if truthy a then a else b.

(** [a or b] where [a] may be [None]. *)
Definition opt_or (a : option string) (b : string) : string :=
  match a with
  | Some s => str_or s b
  | None => b
  end.

Fixpoint lstrip_by (sp : ascii -> bool) (l : list ascii) : list ascii :=
  match l with
  | c :: l' => if sp c then lstrip_by sp l' else l
  | [] => []
  end.

Definition rstrip_by (sp : ascii -> bool) (l : list ascii) : list ascii :=
  rev (lstrip_by sp (rev l)).

Definition strip_by (sp : ascii -> bool) (l : list ascii) : list ascii :=
  rstrip_by sp (lstrip_by sp l).

(** [s.strip()] *)
Definition strip (s : string) : string := str (strip_by is_space (chars s)).

(** [s.lower()] *)
Definition lower (s : string) : string := str (map lower_char (chars s)).

(** [s.isdigit()]: every character is a digit and there is at least one. *)
Definition isdigit (s : string) : bool :=
  match chars s with
  | [] => false
  | l => forallb is_digit l
  end.

(** [s.split(sep)] for a one-character separator. *)
Fixpoint split_chars (sep : ascii) (cur : list ascii) (l : list ascii)
  : list string :=
  match l with
  | [] => [str (rev cur)]
  | c :: l' =>
      if Ascii.eqb c sep then str (rev cur) :: split_chars sep [] l'
      else split_chars sep (c :: cur) l'
  end.

Definition split (sep : ascii) (s : string) : list string :=
  split_chars sep [] (chars s).

(** Comparison of strings: lexicographic on code points. *)
Fixpoint compare_chars (a b : list ascii) : comparison :=
  match a, b with
  | [], [] => Eq
  | [], _ :: _ => Lt
  | _ :: _, [] => Gt
  | x :: a', y :: b' =>
      match N.compare (code x) (code y) with
      | Eq => compare_chars a' b'
      | c => c
      end
  end.

Definition str_compare (a b : string) : comparison :=
  compare_chars (chars a) (chars b).

(** [a <= b] on strings. *)
Definition str_le (a b : string) : bool :=
  match str_compare a b with Gt => false | _ => true end.

(** ** Decimal numerals *)

(** [digitpart ::= digit (["_"] digit)*]: reads the longest such prefix,
    accumulating its value and counting its digits. *)
Fixpoint digitpart_more (acc : Z) (n : Z) (l : list ascii)
  : Z * Z * list ascii :=
  match l with
  | c :: l' =>
      if is_decimal c then digitpart_more (10 * acc + digit_val c) (n + 1) l'
      else if Ascii.eqb c "_"%char then
        match l' with
        | d :: l'' =>
            if is_decimal d
            then digitpart_more (10 * acc + digit_val d) (n + 1) l''
            else (acc, n, l)
        | [] => (acc, n, l)
        end
      else (acc, n, l)
  | [] => (acc, n, l)
  end.

(** Value, number of digits and rest; [None] when [l] does not start with a
    digit. *)
Definition digitpart (l : list ascii) : option (Z * Z * list ascii) :=
  match l with
  | c :: l' =>
      if is_decimal c then Some (digitpart_more (digit_val c) 1 l') else None
  | [] => None
  end.

(** An optional sign: [true] for ["-"]. *)
Definition sign (l : list ascii) : bool * list ascii :=
  match l with
  | c :: l' =>
      if Ascii.eqb c "-"%char then (true, l')
      else if Ascii.eqb c "+"%char then (false, l')
      else (false, l)
  | [] => (false, l)
  end.

(** The number a sequence of decimal digits denotes. *)
Definition digits_value (l : list ascii) : Z :=
  fold_left (fun a c => 10 * a + digit_val c) l 0.

(** Where a [digitpart] ends: at the end of the text, or before a character
    that is neither a digit nor an underscore. *)
Definition digitpart_stops (rest : list ascii) : Prop :=
  match rest with
  | [] => True
  | c :: _ => is_decimal c = false /\ Ascii.eqb c "_"%char = false
  end.

(** [int(s)] in base 10: surrounding whitespace, an optional sign, a
    [digitpart]. (CPython's limit on the number of digits of the argument,
    [sys.set_int_max_str_digits], is not modelled.) *)
Definition int (s : string) : result Z :=
  let '(neg, l) := sign (strip_by is_num_space (chars s)) in
  match digitpart l with
  | Some (v, _, []) => Ok (if neg then - v else v)
  | _ => Raise ValueError
  end.

(** Decimal digits of a natural number, most significant first. *)
Fixpoint digits_fuel (fuel : nat) (n : Z) (acc : list ascii) : list ascii :=
  match fuel with
  | O => acc
  | S f =>
      let acc' := digit_char (n mod 10) :: acc in
      if n <? 10 then acc' else digits_fuel f (n / 10) acc'
  end.

Definition digits (n : Z) : list ascii :=
  digits_fuel (S (Z.to_nat (Z.log2 n))) n [].

(** [str(n)] for an [int]. *)
Definition str_of_int (n : Z) : string :=
  if n <? 0 then str ("-"%char :: digits (- n)) else str (digits n).

(** ** Floats (binary64) *)

Definition prec : Z := 53.
Definition emax : Z := 1024.

Abbreviation float := spec_float (only parsing).

(** [x + y], [x < y], [x <= y], [x == y], [abs(x)] on floats. *)
Definition fadd (x y : float) : float := SFadd prec emax x y.
Definition fsub (x y : float) : float := SFsub prec emax x y.
Definition flt (x y : float) : bool := SFltb x y.
Definition fle (x y : float) : bool := SFleb x y.
Definition feq (x y : float) : bool := SFeqb x y.
Definition fabs (x : float) : float := SFabs x.

(** The literal [0.0] (also [float(0)]). *)
Definition fzero : float := S754_zero false.

(** The binary64 nearest to [(-1)^neg * m * 10^e10], ties to even, for
    [0 <= m]: what CPython's correctly rounded string-to-double conversion
    returns for a decimal numeral with digits [m] and exponent [e10]. *)
Definition float_of_decimal (neg : bool) (m e10 : Z) : float :=
  if 0 <=? e10 then
    match m * 10 ^ e10 with
    | Zpos p => binary_round prec emax neg p 0
    | _ => S754_zero neg
    end
  else
    match m with
    | Zpos _ =>
        let '(q, e, l) := SFdiv_core_binary prec emax m 0 (10 ^ (- e10)) 0 in
        binary_round_aux prec emax neg q e l
    | _ => S754_zero neg
    end.

(** [number ::= [digitpart] "." digitpart | digitpart ["."]]: the digits
    read as one integer, how many of them follow the point, and the rest. *)
Definition number (l : list ascii) : option (Z * Z * list ascii) :=
  match digitpart l with
  | Some (i, _, rest) =>
      match rest with
      | c :: rest' =>
          if Ascii.eqb c "."%char then
            match digitpart rest' with
            | Some (f, k, rest'') => Some (i * 10 ^ k + f, k, rest'')
            | None => Some (i, 0, rest')
            end
          else Some (i, 0, rest)
      | [] => Some (i, 0, rest)
      end
  | None =>
      match l with
      | c :: rest' =>
          if Ascii.eqb c "."%char then
            match digitpart rest' with
            | Some (f, k, rest'') => Some (f, k, rest'')
            | None => None
            end
          else None
      | [] => None
      end
  end.

(** [[exponent]], [exponent ::= ("e" | "E") [sign] digitpart]. *)
Definition exponent (l : list ascii) : option (Z * list ascii) :=
  match l with
  | c :: r =>
      if Ascii.eqb c "e"%char || Ascii.eqb c "E"%char then
        let '(neg, r') := sign r in
        match digitpart r' with
        | Some (v, _, r'') => Some (if neg then - v else v, r'')
        | None => None
        end
      else Some (0, l)
  | [] => Some (0, l)
  end.

(** [float(s)] for a [str]: surrounding whitespace, an optional sign, then
    [inf], [infinity] or [nan] in any case, or [number [exponent]]. *)
Definition float_of_str (s : string) : result float :=
  let '(neg, l) := sign (strip_by is_num_space (chars s)) in
  let w := str (map lower_char l) in
  if String.eqb w "inf" || String.eqb w "infinity" then Ok (S754_infinity neg)
  else if String.eqb w "nan" then Ok S754_nan
  else
    match number l with
    | Some (m, k, rest) =>
        match exponent rest with
        | Some (ex, []) => Ok (float_of_decimal neg m (ex - k))
        | _ => Raise ValueError
        end
    | None => Raise ValueError
    end.

(** [m * 2^e * 100] rounded to an integer, ties to even. *)
Definition hundredths (m : positive) (e : Z) : Z :=
  if 0 <=? e then Zpos m * 2 ^ e * 100
  else
    let d := 2 ^ (- e) in
    let q := (Zpos m * 100) / d in
    let r := (Zpos m * 100) mod d in
    match 2 * r ?= d with
    | Lt => q
    | Eq => if Z.even q then q else q + 1
    | Gt => q + 1
    end.

(** Fixed-point text of [n] hundredths: integer part, point, two digits. *)
Definition fixed2 (neg : bool) (n : Z) : list ascii :=
  (if neg then ["-"%char] else [])
    ++ digits (n / 100)
    ++ ["."%char; digit_char (n mod 100 / 10); digit_char (n mod 10)].

(** ["{:.2f}".format(x)], which is also [f"{x:.2f}"] and ["%.2f" % x]. *)
Definition format_2f (x : float) : string :=
  match x with
  | S754_zero s => str (fixed2 s 0)
  | S754_infinity s => if s then "-inf" else "inf"
  | S754_nan => "nan"
  | S754_finite s m e => str (fixed2 s (hundredths m e))
  end.

(** [round(x, 2)]: the float nearest to [x] rounded to two decimal places
    (ties to even at both roundings); zeros, infinities and NaN are kept. *)
Definition round_2dp (x : float) : float :=
  match x with
  | S754_finite s m e => float_of_decimal s (hundredths m e) (- 2)
  | _ => x
  end.

(** ** Calendar *)

(** [calendar.isleap(year)] *)
Definition isleap (year : Z) : bool :=
  (year mod 4 =? 0) && (negb (year mod 100 =? 0) || (year mod 400 =? 0)).

Definition days_in_month (year month : Z) : Z :=
  if month =? 2 then (if isleap year then 29 else 28)
  else if (month =? 4) || (month =? 6) || (month =? 9) || (month =? 11)
  then 30 else 31.

(** [datetime(year, month, day)] raises [ValueError] unless
    [1 <= year <= 9999], [1 <= month <= 12] and the day exists. *)
Definition datetime_ok (year month day : Z) : bool :=
  (1 <=? year) && (year <=? 9999) && (1 <=? month) && (month <=? 12)
  && (1 <=? day) && (day <=? days_in_month year month).

(** [float(n)] for an [int]: correctly rounded, [OverflowError] when the
    result would not be finite. *)
Definition float_of_int (n : Z) : result float :=
  match float_of_decimal (n <? 0) (Z.abs n) 0 with
  | S754_infinity _ => Raise OverflowError
  | x => Ok x
  end.

(** ** Files *)

(** A row as [csv.DictReader] yields it: field name to text, [None] for a
    field the line is too short to have. *)
Abbreviation Row := (gmap string (option string)) (only parsing).

(** [data.get(key, default)] *)
Definition get (data : Row) (key : string) (default : string)
  : option string :=
  match data !! key with
  | Some v => v
  | None => Some default
  end.

(** A value inside the object [json.load] returns. *)
Inductive jvalue : Type :=
| JNull
| JBool (b : bool)
| JInt (n : Z)
| JFloat (x : float)
| JStr (s : string)
| JCompound.

(** What [json.load] returns: an object, or some other document. *)
Inductive jdoc : Type :=
| JObject (d : gmap string jvalue)
| JOther.

(** [float(v)] for a value taken from a JSON object. *)
Definition float_of_jvalue (v : jvalue) : result float :=
  match v with
  | JNull => Raise TypeError
  | JBool b => Ok (if b then float_of_decimal false 1 0 else fzero)
  | JInt n => float_of_int n
  | JFloat x => Ok x
  | JStr s => float_of_str s
  | JCompound => Raise TypeError
  end.

(** A file, by what the readers of the program get from it: whether
    [open] succeeds, the rows [csv.DictReader] yields (up to the end of the
    file or to the line where the reader raises), and what [json.load]
    returns or raises. *)
Record file : Type := {
  readable : bool;
  csv_rows : list Row;
  json_doc : result jdoc
}.

(** The file system: [os.path.exists(p)] is [is_Some (fs !! p)]. *)
Abbreviation filesystem := (gmap string file) (only parsing).

(** What the operating system grants when a file is opened for writing:
    whether [open(path, "w")] succeeds, and whether the file so written can
    be opened for reading afterwards. *)
Record access : Type := {
  can_write : bool;
  can_read : bool
}.

(** A row as [csv.DictWriter] writes it and [csv.DictReader] reads it back:
    [None] is written as the empty text. *)
Definition written (row : Row) : Row :=
  (fun v : option string => Some (default "" v)) <$> row.

(** The file [csv.DictWriter] leaves after the header and [rows]; its text
    is no JSON document. *)
Definition csv_file (acc : access) (rows : list Row) : file :=
  {| readable := can_read acc;
     csv_rows := map written rows;
     json_doc := Raise ValueError |}.

(** The file [json.dump({"monthly_budget": x}, f)] leaves: one line, which
    [csv.DictReader] takes for a header with no row after it. *)
Definition budget_file (acc : access) (x : float) : file :=
  {| readable := can_read acc;
     csv_rows := [];
     json_doc := Ok (JObject {[ "monthly_budget" := JFloat x ]}) |}.

End Py.

(* ================================================================== *)
(** * src/Test Case 1/expenseTracker3.py                               *)
(* ================================================================== *)

Module Tracker3.
Import Py.

(** ** Data model *)

Record Expense : Type := {
  date : string;
  category : option string;
  amount : float;
  description : option string
}.

Definition Key : Type := string * string * float * string.

Definition ToKey (self : Expense) : Key :=
  (date self, opt_or (category self) "", amount self,
   opt_or (description self) "").

Definition ToDict (self : Expense) : Row :=
  <["date" := Some (date self)]>
  (<["category" := Some (opt_or (category self) "")]>
  (<["amount" := Some (format_2f (amount self))]>
  (<["description" := Some (opt_or (description self) "")]> ∅))).

(** [v.strip()] where [v] may be [None]. *)
Definition strip_val (v : option string) : result string :=
  match v with
  | Some s => Ok (strip s)
  | None => Raise AttributeError
  end.

Definition FromDict (data : Row) : result Expense :=
  let* date := strip_val (get data "date" "") in
  let* category := strip_val (get data "category" "") in
  let* amount_raw := strip_val (Some (opt_or (get data "amount" "0") "0")) in
  let* description := strip_val (get data "description" "") in
  let* amount := float_of_str amount_raw in
  Ok {| date := date;
        category := Some (str_or category "");
        amount := amount;
        description := Some (str_or description "") |}.

(** ** Storage layer *)

Record ExpenseStorage : Type := { csv_path : string }.

(** The loop over the rows of the reader: a [ValueError] skips the row, any
    other exception leaves the loop with what was read so far. *)
Fixpoint load_rows (rows : list Row) (expenses : list Expense)
  : list Expense :=
  match rows with
  | [] => expenses
  | row :: rows' =>
      match FromDict row with
      | Ok expense => load_rows rows' (expenses ++ [expense])
      | Raise ValueError => load_rows rows' expenses
      | Raise _ => expenses
      end
  end.

Definition LoadExpensesFromCsv (fs : filesystem) (self : ExpenseStorage)
    (path : option string) : list Expense :=
  let target := opt_or path (csv_path self) in
  match fs !! target with
  | None => []
  | Some f => if readable f then load_rows (csv_rows f) [] else []
  end.

Record BudgetManager : Type := {
  budget_json_path : string;
  monthly_budget : float
}.

(** [BudgetManager.__init__] *)
Definition BudgetManager_init (budget_json_path : string) : BudgetManager :=
  {| budget_json_path := budget_json_path; monthly_budget := fzero |}.

Definition LoadBudgetOnStart (fs : filesystem) (self : BudgetManager)
  : BudgetManager :=
  match fs !! budget_json_path self with
  | None => self
  | Some f =>
      if readable f then
        match json_doc f with
        | Ok (JObject data) =>
            let v := match data !! "monthly_budget" with
                     | Some v => float_of_jvalue v
                     | None => Ok fzero
                     end in
            match v with
            | Ok x => {| budget_json_path := budget_json_path self;
                         monthly_budget := x |}
            | Raise _ => self
            end
        | _ => self
        end
      else self
  end.

(** ** Core tracker logic *)

Record ExpenseTracker : Type := {
  storage : ExpenseStorage;
  budget_manager : BudgetManager;
  expenses : list Expense
}.

(** [ExpenseTracker.__init__] *)
Definition ExpenseTracker_init (storage : ExpenseStorage)
    (budget_manager : BudgetManager) : ExpenseTracker :=
  {| storage := storage; budget_manager := budget_manager; expenses := [] |}.

Definition with_expenses (self : ExpenseTracker) (l : list Expense)
  : ExpenseTracker :=
  {| storage := storage self; budget_manager := budget_manager self;
     expenses := l |}.

Definition msg_date_required : string := "Date is required.".
Definition msg_date_format : string := "Date must be in YYYY-MM-DD format.".
Definition msg_not_leap (year : Z) : string :=
  str_of_int year ++ " is not a leap year; February 29 is invalid.".
Definition msg_invalid_date : string :=
  "Invalid calendar date (e.g., February 30 doesn't exist).".
Definition msg_amount_required : string := "Amount is required.".
Definition msg_amount_negative : string := "Amount cannot be negative.".
Definition msg_amount_number : string := "Amount must be a valid number.".

Definition _ValidateDateStrict (date_str : string) : result (option string) :=
  if negb (truthy date_str) then Ok (Some msg_date_required)
  else
    let parts := split "-"%char date_str in
    if negb (length parts =? 3)%nat || existsb (fun p => negb (isdigit p)) parts
    then Ok (Some msg_date_format)
    else
      match parts with
      | [y_str; m_str; d_str] =>
          if negb ((len y_str =? 4) && (len m_str =? 2) && (len d_str =? 2))
          then Ok (Some msg_date_format)
          else
            let* year := int y_str in
            let* month := int m_str in
            let* day := int d_str in
            if (month =? 2) && (day =? 29) && negb (isleap year)
            then Ok (Some (msg_not_leap year))
            else if datetime_ok year month day then Ok None
            else Ok (Some msg_invalid_date)
      | _ => Ok (Some msg_date_format)
      end.

Definition ValidateExpenseData (date_str amount_str : string)
  : result (option string) :=
  let* date_error := _ValidateDateStrict date_str in
  if truthy (default "" date_error) then Ok date_error
  else if negb (truthy amount_str) then Ok (Some msg_amount_required)
  else
    match float_of_str amount_str with
    | Ok amount_value =>
        if flt amount_value fzero then Ok (Some msg_amount_negative)
        else Ok None
    | Raise ValueError => Ok (Some msg_amount_number)
    | Raise e => Raise e
    end.

Inductive add_outcome : Type :=
| Added (expense : Expense)
| AddCancelled (error : string).

(** The four arguments are the lines read by [input]. *)
Definition AddExpenseInteractive (self : ExpenseTracker)
    (in_date in_category in_amount in_description : string)
  : result (ExpenseTracker * add_outcome) :=
  let date_str := strip in_date in
  let category := strip in_category in
  let amount_str := strip in_amount in
  let description := strip in_description in
  let* error := ValidateExpenseData date_str amount_str in
  if truthy (default "" error) then Ok (self, AddCancelled (default "" error))
  else
    let* amount_value := float_of_str amount_str in
    let expense := {| date := date_str;
                      category := Some (str_or category "");
                      amount := amount_value;
                      description := Some (str_or description "") |} in
    Ok (with_expenses self (expenses self ++ [expense]), Added expense).

Definition CalculateTotalExpenses (self : ExpenseTracker) : float :=
  fold_left (fun total exp => fadd total (amount exp)) (expenses self) fzero.

(** [category_totals[key] = category_totals.get(key, 0.0) + amt] on a dict
    kept in insertion order. *)
Fixpoint totals_add (key : string) (amt : float)
    (category_totals : list (string * float)) : list (string * float) :=
  match category_totals with
  | [] => [(key, fadd fzero amt)]
  | (k, v) :: rest =>
      if String.eqb k key then (k, fadd v amt) :: rest
      else (k, v) :: totals_add key amt rest
  end.

Definition category_key (exp : Expense) : string :=
  str_or (strip (opt_or (category exp) "")) "Uncategorized".

Definition category_totals (expenses : list Expense) : list (string * float) :=
  fold_left (fun totals exp => totals_add (category_key exp) (amount exp) totals)
    expenses [].

(** [sorted(items, key=lambda x: x[0].lower())]: a stable sort. *)
Fixpoint insert_by_lower (x : string * float) (l : list (string * float))
  : list (string * float) :=
  match l with
  | [] => [x]
  | y :: l' =>
      if str_le (lower (fst x)) (lower (fst y)) then x :: l
      else y :: insert_by_lower x l'
  end.

Definition sorted_by_lower (l : list (string * float)) : list (string * float) :=
  fold_right insert_by_lower [] l.

(** The pairs [(cat, total)] in the order the report prints them. *)
Definition CategorizeExpenseReport (self : ExpenseTracker)
  : list (string * float) :=
  match expenses self with
  | [] => []
  | _ => sorted_by_lower (category_totals (expenses self))
  end.

(** The printed line [f"- {cat}: ${total:.2f}"]. *)
Definition report_line (item : string * float) : string :=
  "- " ++ fst item ++ ": $" ++ format_2f (snd item).

(** *** Listing and deletion *)

Inductive listing_line : Type :=
| Skipping (idx : Z) (err : string)
| Entry (idx : Z) (date cat amount desc : string).

(** [x if (x and x.strip()) else "(none)"] *)
Definition or_none_stripped (x : option string) : string :=
  match x with
  | Some s => if truthy s && truthy (strip s) then s else "(none)"
  | None => "(none)"
  end.

Inductive delete_outcome : Type :=
| NoExpenses
| Deleted (removed : Expense)
| InvalidNumber
| InvalidInteger.

Section Display.

(** [str(x)] for a float [x], the shortest numeral that reads back as [x]:
    only its being some text matters below. *)
Variable float_str : float -> string.

(** The loop that prints the entries, shared by [ViewExpenses] and
    [DeleteExpense]; [idx] is the number of the first entry of [l]. *)
Fixpoint show_entries (idx : Z) (l : list Expense)
  : result (list listing_line) :=
  match l with
  | [] => Ok []
  | exp :: l' =>
      let* err := ValidateExpenseData (date exp) (float_str (amount exp)) in
      let line :=
        if truthy (default "" err) then Skipping idx (default "" err)
        else Entry idx (date exp) (or_none_stripped (category exp))
               (format_2f (amount exp)) (or_none_stripped (description exp)) in
      let* lines := show_entries (idx + 1) l' in
      Ok (line :: lines)
  end.

Definition ViewExpenses (self : ExpenseTracker) : result (list listing_line) :=
  show_entries 1 (expenses self).

(** [in_index] is the line read by [input]. *)
Definition DeleteExpense (self : ExpenseTracker) (in_index : string)
  : result (ExpenseTracker * delete_outcome) :=
  match expenses self with
  | [] => Ok (self, NoExpenses)
  | _ =>
      let* _ := show_entries 1 (expenses self) in
      let index_str := strip in_index in
      match int index_str with
      | Ok index =>
          if (index <? 1) || (index >? Z.of_nat (length (expenses self)))
          then Ok (self, InvalidNumber)
          else
            let i := Z.to_nat (index - 1) in
            match expenses self !! i with
            | Some removed =>
                Ok (with_expenses self (delete i (expenses self)),
                    Deleted removed)
            | None => Raise IndexError
            end
      | Raise ValueError => Ok (self, InvalidInteger)
      | Raise e => Raise e
      end
  end.

End Display.

(** *** Import / merge *)

(** Equality of two keys held by different records: [==] on each
    component ([0.0 == -0.0], and a NaN equals nothing). *)
Definition key_eqb (a b : Key) : bool :=
  let '(d1, c1, a1, s1) := a in
  let '(d2, c2, a2, s2) := b in
  String.eqb d1 d2 && String.eqb c1 c2 && feq a1 a2 && String.eqb s1 s2.

(** [key in existing_keys] *)
Definition key_in (k : Key) (existing_keys : list Key) : bool :=
  existsb (key_eqb k) existing_keys.

(** The loop over [imported]: the expenses, the keys and the count. *)
Fixpoint merge_loop (imported : list Expense) (expenses : list Expense)
    (existing_keys : list Key) (added : Z) : list Expense * list Key * Z :=
  match imported with
  | [] => (expenses, existing_keys, added)
  | e :: imported' =>
      if negb (key_in (ToKey e) existing_keys)
      then merge_loop imported' (expenses ++ [e])
             (ToKey e :: existing_keys) (added + 1)
      else merge_loop imported' expenses existing_keys added
  end.

Inductive import_outcome : Type :=
| NoPath
| NothingFound
| Imported (from_file added total : Z).

Definition ImportExpensesFromCsv (fs : filesystem) (self : ExpenseTracker)
    (in_path : string) : ExpenseTracker * import_outcome :=
  let path := strip in_path in
  if negb (truthy path) then (self, NoPath)
  else
    let imported := LoadExpensesFromCsv fs (storage self) (Some path) in
    match imported with
    | [] => (self, NothingFound)
    | _ =>
        let existing_keys := map ToKey (expenses self) in
        let '(expenses', _, added) :=
          merge_loop imported (expenses self) existing_keys 0 in
        (with_expenses self expenses',
         Imported (Z.of_nat (length imported)) added
           (Z.of_nat (length expenses')))
    end.

(** *** Persistence *)

Definition LoadExpenses (fs : filesystem) (self : ExpenseTracker)
  : ExpenseTracker :=
  with_expenses self (LoadExpensesFromCsv fs (storage self) None).

(** *** Saving *)

Inductive save_outcome : Type :=
| Saved (count : Z)
| SaveError.

Definition SaveExpensesToCsv (fs : filesystem) (acc : access)
    (self : ExpenseStorage) (expenses : list Expense)
  : filesystem * save_outcome :=
  if can_write acc then
    (<[csv_path self := csv_file acc (map ToDict expenses)]> fs,
     Saved (Z.of_nat (length expenses)))
  else (fs, SaveError).

Definition SaveExpenses (fs : filesystem) (acc : access)
    (self : ExpenseTracker) : filesystem * save_outcome :=
  SaveExpensesToCsv fs acc (storage self) (expenses self).

Definition SaveBudget (fs : filesystem) (acc : access) (self : BudgetManager)
  : filesystem :=
  if can_write acc then
    <[budget_json_path self := budget_file acc (monthly_budget self)]> fs
  else fs.

Inductive budget_event : Type :=
| BudgetNegative
| BudgetNotNumber.

(** [SetMonthlyBudget]: [inputs] are the lines [input] will return; the
    result is the files, the manager, the warnings printed on the way and
    the lines left unread. *)
Fixpoint SetMonthlyBudget (fs : filesystem) (acc : access)
    (self : BudgetManager) (inputs : list string)
  : result (filesystem * BudgetManager * list budget_event * list string) :=
  match inputs with
  | [] => Raise EOFError
  | raw :: inputs' =>
      match float_of_str raw with
      | Ok value =>
          if flt value fzero then
            let* r := SetMonthlyBudget fs acc self inputs' in
            let '(fs', self', evs, rest) := r in
            Ok (fs', self', BudgetNegative :: evs, rest)
          else
            let self' := {| budget_json_path := budget_json_path self;
                            monthly_budget := value |} in
            Ok (SaveBudget fs acc self', self', [], inputs')
      | Raise ValueError =>
          let* r := SetMonthlyBudget fs acc self inputs' in
          let '(fs', self', evs, rest) := r in
          Ok (fs', self', BudgetNotNumber :: evs, rest)
      | Raise e => Raise e
      end
  end.

Inductive track_outcome : Type :=
| NoBudgetSet
| OverBudget (total budget over : string)
| WithinBudget (total budget left : string).

Definition TrackBudget (self : BudgetManager) (total_expenses : float)
  : track_outcome :=
  if fle (monthly_budget self) fzero then NoBudgetSet
  else
    let remaining := fsub (monthly_budget self) total_expenses in
    if flt remaining fzero then
      OverBudget (format_2f total_expenses) (format_2f (monthly_budget self))
        (format_2f (fabs remaining))
    else
      WithinBudget (format_2f total_expenses)
        (format_2f (monthly_budget self)) (format_2f remaining).

(** ** Menu / application shell *)

(** [ExpenseApp.__init__]: the storage, the budget manager and the tracker
    that shares them. The tracker's fields are the application's objects. *)
Definition ExpenseApp_init : ExpenseTracker :=
  ExpenseTracker_init {| csv_path := "expenses.csv" |}
    (BudgetManager_init "budget.json").

Definition with_budget_manager (self : ExpenseTracker) (bm : BudgetManager)
  : ExpenseTracker :=
  {| storage := storage self; budget_manager := bm;
     expenses := expenses self |}.

Section App.

Variable float_str : float -> string.

(** What the system grants on the writes of the session. *)
Variable acc : access.

(** [RunInteractiveMenu] over the lines [input] will return: the files,
    the application and the lines left unread when choice 9 ends the loop.
    Each turn of the loop reads a line, so [fuel] above the number of
    lines is never used up. *)
Fixpoint menu_loop (fuel : nat) (fs : filesystem) (self : ExpenseTracker)
    (inputs : list string)
  : result (filesystem * ExpenseTracker * list string) :=
  match fuel with
  | O => Raise EOFError
  | S fuel' =>
      match inputs with
      | [] => Raise EOFError
      | line :: rest =>
          let choice := strip line in
          if String.eqb choice "1" then
            match rest with
            | in_date :: in_category :: in_amount :: in_description :: rest' =>
                let* r := AddExpenseInteractive self in_date in_category
                            in_amount in_description in
                menu_loop fuel' fs (fst r) rest'
            | _ => Raise EOFError
            end
          else if String.eqb choice "2" then
            let* _ := ViewExpenses float_str self in
            menu_loop fuel' fs self rest
          else if String.eqb choice "3" then
            match expenses self, rest with
            | [], _ => menu_loop fuel' fs self rest
            | _, [] =>
                let* _ := show_entries float_str 1 (expenses self) in
                Raise EOFError
            | _, in_index :: rest' =>
                let* r := DeleteExpense float_str self in_index in
                menu_loop fuel' fs (fst r) rest'
            end
          else if String.eqb choice "4" then
            let* r := SetMonthlyBudget fs acc (budget_manager self) rest in
            let '(fs', bm, _, rest') := r in
            menu_loop fuel' fs' (with_budget_manager self bm) rest'
          else if String.eqb choice "5" then
            menu_loop fuel' fs self rest
          else if String.eqb choice "6" then
            menu_loop fuel' fs self rest
          else if String.eqb choice "7" then
            menu_loop fuel' (fst (SaveExpenses fs acc self)) self rest
          else if String.eqb choice "8" then
            match rest with
            | in_path :: rest' =>
                menu_loop fuel' fs
                  (fst (ImportExpensesFromCsv fs self in_path)) rest'
            | [] => Raise EOFError
            end
          else if String.eqb choice "9" then
            Ok (fst (SaveExpenses fs acc self), self, rest)
          else menu_loop fuel' fs self rest
      end
  end.

Definition RunInteractiveMenu (fs : filesystem) (self : ExpenseTracker)
    (inputs : list string)
  : result (filesystem * ExpenseTracker * list string) :=
  menu_loop (S (length inputs)) fs self inputs.

(** [ExpenseApp().Start()] *)
Definition Start (fs : filesystem) (inputs : list string)
  : result (filesystem * ExpenseTracker * list string) :=
  let self := LoadExpenses fs ExpenseApp_init in
  let self := with_budget_manager self
                (LoadBudgetOnStart fs (budget_manager self)) in
  RunInteractiveMenu fs self inputs.

End App.

End Tracker3.

(* ================================================================== *)
(** * src/expenseTrackerFinal.py                                       *)
(* ================================================================== *)

Module Final.
Import Py.

(** ** Expense object *)

(** The fields are what [__init__] is given: text, or [None] when the
    record comes from a row too short to have the field. *)
Record Expense : Type := {
  date : option string;
  category : option string;
  amount : float;
  description : option string
}.

Definition toDict (self : Expense) : Row :=
  <["date" := date self]>
  (<["category" := category self]>
  (<["amount" := Some (format_2f (amount self))]>
  (<["description" := description self]> ∅))).

(** [float(d.get('amount', 0.0))] *)
Definition amount_of_row (d : Row) : result float :=
  match d !! "amount" with
  | None => Ok fzero
  | Some None => Raise TypeError
  | Some (Some s) => float_of_str s
  end.

Definition fromDict (d : Row) : result (option Expense) :=
  if decide (d = ∅) then Ok None
  else
    let* a := amount_of_row d in
    Ok (Some {| date := get d "date" "";
                category := get d "category" "";
                amount := a;
                description := get d "description" "" |}).

(** ** File work *)

Record ExpenseStorage : Type := { filePath : string }.

(** The loop over the rows: a row on which [fromDict] raises is skipped. *)
Fixpoint load_rows (rows : list Row) (data : list Expense) : list Expense :=
  match rows with
  | [] => data
  | r :: rows' =>
      match fromDict r with
      | Ok (Some ex) => load_rows rows' (data ++ [ex])
      | Ok None => load_rows rows' data
      | Raise _ => load_rows rows' data
      end
  end.

Definition loadFromCsv (fs : filesystem) (self : ExpenseStorage)
  : list Expense :=
  match fs !! filePath self with
  | None => []
  | Some f => if readable f then load_rows (csv_rows f) [] else []
  end.

(** ** Budget manager *)

Record BudgetManager : Type := {
  budgetFile : string;
  monthlyBudget : float
}.

(** [BudgetManager.__init__] *)
Definition BudgetManager_init (budgetFile : string) : BudgetManager :=
  {| budgetFile := budgetFile; monthlyBudget := fzero |}.

Definition loadBudget (fs : filesystem) (self : BudgetManager)
  : BudgetManager :=
  match fs !! budgetFile self with
  | None => self
  | Some f =>
      if readable f then
        match json_doc f with
        | Ok (JObject info) =>
            let v := match info !! "monthly_budget" with
                     | Some v => float_of_jvalue v
                     | None => float_of_int 0
                     end in
            match v with
            | Ok x => {| budgetFile := budgetFile self; monthlyBudget := x |}
            | Raise _ => self
            end
        | _ => self
        end
      else self
  end.

(** ** Expense tracker *)

Record ExpenseTracker : Type := {
  storage : ExpenseStorage;
  budgetMgr : BudgetManager;
  expenses : list Expense
}.

Definition with_expenses (self : ExpenseTracker) (l : list Expense)
  : ExpenseTracker :=
  {| storage := storage self; budgetMgr := budgetMgr self; expenses := l |}.

Inductive amount_event : Type :=
| AmountNegative
| AmountNotNumber.

(** [validateAmount]: [inputs] are the lines [input] will return, in
    order; the result is the returned value, the warnings printed on the
    way and the lines left unread. Reading past the last line is
    [EOFError]. *)
Fixpoint validateAmount (inputs : list string)
  : result (option float * list amount_event * list string) :=
  match inputs with
  | [] => Raise EOFError
  | line :: inputs' =>
      let a := strip line in
      if String.eqb (lower a) "q" then Ok (None, [], inputs')
      else
        match float_of_str a with
        | Ok val =>
            if flt val fzero then
              let* r := validateAmount inputs' in
              let '(v, evs, rest) := r in Ok (v, AmountNegative :: evs, rest)
            else Ok (Some val, [], inputs')
        | Raise ValueError =>
            let* r := validateAmount inputs' in
            let '(v, evs, rest) := r in Ok (v, AmountNotNumber :: evs, rest)
        | Raise e => Raise e
        end
  end.

Inductive delete_event : Type :=
| OutOfRange
| NotANumber.

Inductive delete_end : Type :=
| NothingToDelete
| Cancelled
| Removed (dltd : Expense).

(** The [while True] loop of [deleteExpense] over the lines [input] will
    return. *)
Fixpoint deleteExpense_loop (expenses : list Expense) (inputs : list string)
  : result (list Expense * list delete_event * delete_end * list string) :=
  match inputs with
  | [] => Raise EOFError
  | line :: inputs' =>
      let choice := strip line in
      if String.eqb (lower choice) "q"
      then Ok (expenses, [], Cancelled, inputs')
      else
        match int choice with
        | Ok indexx =>
            if (indexx <=? 0) || (indexx >? Z.of_nat (length expenses)) then
              let* r := deleteExpense_loop expenses inputs' in
              let '(l, evs, fin, rest) := r in
              Ok (l, OutOfRange :: evs, fin, rest)
            else
              let i := Z.to_nat (indexx - 1) in
              match expenses !! i with
              | Some dltd => Ok (delete i expenses, [], Removed dltd, inputs')
              | None => Raise IndexError
              end
        | Raise ValueError =>
            let* r := deleteExpense_loop expenses inputs' in
            let '(l, evs, fin, rest) := r in
            Ok (l, NotANumber :: evs, fin, rest)
        | Raise e => Raise e
        end
  end.

Definition deleteExpense (self : ExpenseTracker) (inputs : list string)
  : result (ExpenseTracker * list delete_event * delete_end * list string) :=
  match expenses self with
  | [] => Ok (self, [], NothingToDelete, inputs)
  | _ =>
      let* r := deleteExpense_loop (expenses self) inputs in
      let '(l, evs, fin, rest) := r in
      Ok (with_expenses self l, evs, fin, rest)
  end.

(** [sCategories.setdefault(cat, 0.0); sCategories[cat] += float(e.amount)]
    on a dict kept in insertion order. *)
Fixpoint totals_add (cat : string) (amt : float)
    (sCategories : list (string * float)) : list (string * float) :=
  match sCategories with
  | [] => [(cat, fadd fzero amt)]
  | (k, v) :: rest =>
      if String.eqb k cat then (k, fadd v amt) :: rest
      else (k, v) :: totals_add cat amt rest
  end.

Definition category_key (e : Expense) : string :=
  match category e with
  | Some c => if truthy c then strip c else "Uncategorized"
  | None => "Uncategorized"
  end.

Definition category_totals (expenses : list Expense) : list (string * float) :=
  fold_left (fun totals e => totals_add (category_key e) (amount e) totals)
    expenses [].

(** [sorted(sCategories.keys())] with each key's total. *)
Fixpoint insert_by_key (x : string * float) (l : list (string * float))
  : list (string * float) :=
  match l with
  | [] => [x]
  | y :: l' =>
      if str_le (fst x) (fst y) then x :: l else y :: insert_by_key x l'
  end.

Definition showByCategory (self : ExpenseTracker) : list (string * float) :=
  match expenses self with
  | [] => []
  | _ => fold_right insert_by_key [] (category_totals (expenses self))
  end.

(** The printed line [print("-", k, ":", "$%.2f" % sCategories[k])]. *)
Definition report_line (item : string * float) : string :=
  "- " ++ fst item ++ " : $" ++ format_2f (snd item).

Definition loadCurrent (fs : filesystem) (self : ExpenseTracker)
  : ExpenseTracker :=
  with_expenses self (loadFromCsv fs (storage self)).

(** *** Saving *)

Inductive save_outcome : Type :=
| Saved (count : Z)
| Problem.

Definition saveToCsv (fs : filesystem) (acc : access) (self : ExpenseStorage)
    (allSpends : list Expense) : filesystem * save_outcome :=
  if can_write acc then
    (<[filePath self := csv_file acc (map toDict allSpends)]> fs,
     Saved (Z.of_nat (length allSpends)))
  else (fs, Problem).

Definition saveCurrent (fs : filesystem) (acc : access)
    (self : ExpenseTracker) : filesystem * save_outcome :=
  saveToCsv fs acc (storage self) (expenses self).

Definition saveBudget (fs : filesystem) (acc : access) (self : BudgetManager)
  : filesystem :=
  if can_write acc then
    <[budgetFile self := budget_file acc (monthlyBudget self)]> fs
  else fs.

Inductive budget_event : Type :=
| BudgetNegative
| BudgetNotNumber.

(** [setBudget] over the lines [input] will return. *)
Fixpoint setBudget (fs : filesystem) (acc : access) (self : BudgetManager)
    (inputs : list string)
  : result (filesystem * BudgetManager * list budget_event * list string) :=
  match inputs with
  | [] => Raise EOFError
  | val :: inputs' =>
      match float_of_str val with
      | Ok amt =>
          if flt amt fzero then
            let* r := setBudget fs acc self inputs' in
            let '(fs', self', evs, rest) := r in
            Ok (fs', self', BudgetNegative :: evs, rest)
          else
            let self' := {| budgetFile := budgetFile self;
                            monthlyBudget := amt |} in
            Ok (saveBudget fs acc self', self', [], inputs')
      | Raise ValueError =>
          let* r := setBudget fs acc self inputs' in
          let '(fs', self', evs, rest) := r in
          Ok (fs', self', BudgetNotNumber :: evs, rest)
      | Raise e => Raise e
      end
  end.

Inductive track_outcome : Type :=
| NoBudgetYet
| OverBudget (total budget over : string)
| StillLeft (total budget left : string).

Definition track (self : BudgetManager) (total : float) : track_outcome :=
  if fle (monthlyBudget self) fzero then NoBudgetYet
  else
    let remaining := fsub (monthlyBudget self) total in
    if flt remaining fzero then
      OverBudget (format_2f total) (format_2f (monthlyBudget self))
        (format_2f (fabs remaining))
    else
      StillLeft (format_2f total) (format_2f (monthlyBudget self))
        (format_2f remaining).

End Final.

(* ================================================================== *)
(** * Definitions used by the statements                               *)
(* ================================================================== *)

Module Aux.
Import Py.

(** A text [lstrip_by] leaves as it is: empty, or starting with a kept
    character. *)
Definition lstripped (sp : ascii -> bool) (l : list ascii) : Prop :=
  match l with
  | [] => True
  | c :: _ => sp c = false
  end.

(** A record whose text fields are present and carry no surrounding
    whitespace: each is the result of a [strip]. *)
Definition stripped_fields (e : Tracker3.Expense) : Prop :=
  exists d c t,
    Tracker3.date e = strip d
    /\ Tracker3.category e = Some (strip c)
    /\ Tracker3.description e = Some (strip t).

(** The character U+00B2, SUPERSCRIPT TWO. *)
Definition superscript_two : ascii := ascii_of_N 178.

(** The text [²²²²-01-01]: ten characters, two hyphens, and [isdigit] holds
    of each part. *)
Definition date_superscripts : string :=
  String superscript_two (String superscript_two (String superscript_two
    (String superscript_two "-01-01"))).

(** A tracker with no expenses, as [ExpenseApp.__init__] builds it. *)
Definition tracker0 : Tracker3.ExpenseTracker :=
  Tracker3.ExpenseTracker_init
    {| Tracker3.csv_path := "expenses.csv" |}
    (Tracker3.BudgetManager_init "budget.json").

(** The float a numeral denotes, NaN when it is not a numeral. *)
Definition lit (s : string) : float :=
  match float_of_str s with
  | Ok x => x
  | Raise _ => S754_nan
  end.

Definition expense3 (date category amount description : string)
  : Tracker3.Expense :=
  {| Tracker3.date := date; Tracker3.category := Some category;
     Tracker3.amount := lit amount;
     Tracker3.description := Some description |}.

(** *** Reachable ledgers *)

Section Steps.
Variable float_str : float -> string.

(** Operations on records entered by hand: an add or a delete that
    returns. *)
Inductive entry_step : Tracker3.ExpenseTracker -> Tracker3.ExpenseTracker -> Prop :=
| step_add self in_date in_category in_amount in_description self' outcome :
    Tracker3.AddExpenseInteractive self in_date in_category in_amount
      in_description = Ok (self', outcome) ->
    entry_step self self'
| step_delete self in_index self' outcome :
    Tracker3.DeleteExpense float_str self in_index = Ok (self', outcome) ->
    entry_step self self'.

(** Operations that bring in stored rows: loading the store, importing a
    file. *)
Inductive load_step : Tracker3.ExpenseTracker -> Tracker3.ExpenseTracker -> Prop :=
| step_load (fs : filesystem) self :
    load_step self (Tracker3.LoadExpenses fs self)
| step_import (fs : filesystem) self in_path :
    load_step self (fst (Tracker3.ImportExpensesFromCsv fs self in_path)).

Definition step (self self' : Tracker3.ExpenseTracker) : Prop :=
  entry_step self self' \/ load_step self self'.

End Steps.

(** [x >= 0] for a float. *)
Definition nonneg (x : float) : bool := fle fzero x.

(** A store whose only row has the amount [-5]. *)
Definition row_negative : Row :=
  <["date" := Some "2024-01-05"]>
  (<["category" := Some "Refund"]>
  (<["amount" := Some "-5"]>
  (<["description" := Some ""]> ∅))).

Definition fs_negative : filesystem :=
  {[ "expenses.csv" := {| readable := true; csv_rows := [row_negative];
                          json_doc := Raise ValueError |} ]}.

(** *** Import / merge, after the specification *)

(** An incoming record is appended when no record of the collection, there
    before the call or appended earlier in it, has its key. *)
Fixpoint import_merge (incoming current : list Tracker3.Expense)
  : list Tracker3.Expense :=
  match incoming with
  | [] => current
  | e :: incoming' =>
      if existsb (fun x => Tracker3.key_eqb (Tracker3.ToKey e) (Tracker3.ToKey x))
           current
      then import_merge incoming' current
      else import_merge incoming' (current ++ [e])
  end.

(** The set of keys as the loop keeps it: a key is in it exactly when a
    record of the collection has it. *)
Definition keys_of (existing_keys : list Tracker3.Key)
    (expenses : list Tracker3.Expense) : Prop :=
  forall k, Tracker3.key_in k existing_keys
            = existsb (fun x => Tracker3.key_eqb k (Tracker3.ToKey x)) expenses.

Definition coffee : Tracker3.Expense := expense3 "2024-01-05" "Food" "3.50" "coffee".
Definition lunch : Tracker3.Expense := expense3 "2024-01-06" "Food" "12.25" "lunch".

(** A file to import: a row equal to [coffee], then [lunch]. *)
Definition fs_import : filesystem :=
  {[ "old.csv" := {| readable := true;
                     csv_rows := [Tracker3.ToDict coffee; Tracker3.ToDict lunch];
                     json_doc := Raise ValueError |} ]}.

(** *** Reports *)

(** The records with key [k], in the order of the ledger. *)
Definition group_by {A : Type} (key : A -> string) (k : string) (l : list A)
  : list A :=
  filter (fun e => key e = k) l.

(** The group of a label in [expenseTracker3.py] and in
    [expenseTrackerFinal.py]. *)
Definition group : string -> list Tracker3.Expense -> list Tracker3.Expense :=
  group_by Tracker3.category_key.

Definition final_group : string -> list Final.Expense -> list Final.Expense :=
  group_by Final.category_key.

(** The left-to-right float sum the loops compute, from [0.0]. *)
Definition fsum (l : list float) : float := fold_left fadd l fzero.

(** [category_totals.get(k)] on the dict kept in insertion order. *)
Fixpoint totals_get (k : string) (d : list (string * float)) : option float :=
  match d with
  | [] => None
  | (k', v) :: rest => if String.eqb k' k then Some v else totals_get k rest
  end.

(** The dict after the loop over [l]: its keys are distinct, each key is
    the key of a record, with the float sum of its group as value, and
    every record's key is there. *)
Definition totals_of {A : Type} (key : A -> string) (amt : A -> float)
    (d : list (string * float)) (l : list A) : Prop :=
  NoDup d.*1
  /\ forall k,
       totals_get k d
       = match group_by key k l with
         | [] => None
         | g => Some (fsum (map amt g))
         end.

(** What a record entered by hand satisfies. *)
Definition entered_ok (e : Tracker3.Expense) : Prop :=
  flt (Tracker3.amount e) fzero = false
  /\ (Tracker3.amount e <> S754_nan -> nonneg (Tracker3.amount e) = true).

(** The order of the report: by lower-cased label. *)
Definition le_lower (a b : string * float) : Prop :=
  str_le (lower (fst a)) (lower (fst b)) = true.

(** The order of the report of [expenseTrackerFinal.py]: by label. *)
Definition le_key (a b : string * float) : Prop :=
  str_le (fst a) (fst b) = true.

(** Label and printed subtotal of each line of a report. *)
Definition printed (report : list (string * float)) : list (string * string) :=
  map (fun item => (fst item, format_2f (snd item))) report.

(** The ledger of the grouping example. *)
Definition ledger_food : Tracker3.ExpenseTracker :=
  Tracker3.with_expenses tracker0
    [expense3 "2024-01-05" "Food" "10" "";
     expense3 "2024-01-06" " food " "5" "";
     expense3 "2024-01-07" "" "3" ""].

Definition final_expense (date category amount description : string)
  : Final.Expense :=
  {| Final.date := Some date; Final.category := Some category;
     Final.amount := lit amount; Final.description := Some description |}.

Definition final_tracker (l : list Final.Expense) : Final.ExpenseTracker :=
  {| Final.storage := {| Final.filePath := "expenses.csv" |};
     Final.budgetMgr := Final.BudgetManager_init "budget.json";
     Final.expenses := l |}.

(** A ledger of three records. *)
Definition ledger3 : Tracker3.ExpenseTracker :=
  Tracker3.with_expenses tracker0
    [coffee; lunch; expense3 "2024-01-07" "Travel" "100.00" "train"].

Definition final_food : Final.ExpenseTracker :=
  final_tracker
    [final_expense "2024-01-05" "Food" "10" "";
     final_expense "2024-01-06" " food " "5" "";
     final_expense "2024-01-07" "" "3" ""].


(** *** Dates *)

(** The parts of a split text put together again with the separator. *)
Fixpoint join_chars (sep : ascii) (parts : list string) : list ascii :=
  match parts with
  | [] => []
  | [p] => chars p
  | p :: ps => chars p ++ sep :: join_chars sep ps
  end.


(** Decimal digits only. *)
Definition all_decimal (l : list ascii) : Prop := forallb is_decimal l = true.

(** A text without characters beyond ASCII. *)
Definition ascii_only (s : string) : Prop :=
  Forall (fun c => (code c < 128)%N) (chars s).

(** *** Rows *)

(** A row with a text, or nothing, under each of the three text fields:
    no field the line was too short to have. *)
Definition complete_row (row : Row) : Prop :=
  is_Some (get row "date" "") /\ is_Some (get row "category" "")
  /\ is_Some (get row "description" "").

(** The record of a row that reads, nothing for a row that does not. *)
Definition read_row (row : Row) : option Tracker3.Expense :=
  match Tracker3.FromDict row with
  | Ok e => Some e
  | Raise _ => None
  end.

Definition final_read_row (row : Row) : option Final.Expense :=
  match Final.fromDict row with
  | Ok (Some e) => Some e
  | _ => None
  end.



(** A row too short to have a description. *)
Definition row_short : Row :=
  <["date" := Some "2024-01-06"]>
  (<["category" := Some "Food"]>
  (<["amount" := Some "4.00"]>
  (<["description" := None]> ∅))).

(** A store with the row of [coffee], a short row, and the row of
    [lunch]. *)
Definition fs_short : filesystem :=
  {[ "expenses.csv" :=
       {| readable := true;
          csv_rows := [Tracker3.ToDict coffee; row_short; Tracker3.ToDict lunch];
          json_doc := Raise ValueError |} ]}.

(** Writing is granted and what is written can be read. *)
Definition granted : access := {| can_write := true; can_read := true |}.

(** A line the budget prompt turns down: no number, or a number below
    zero. *)
Definition budget_line_rejected (raw : string) : Prop :=
  match float_of_str raw with
  | Ok v => flt v fzero = true
  | Raise _ => True
  end.

(** No two records of the list have keys that are equal, in the sense of
    [key_eqb]. *)
Fixpoint distinct_keys (l : list Tracker3.Expense) : Prop :=
  match l with
  | [] => True
  | e :: l' =>
      existsb (fun x => Tracker3.key_eqb (Tracker3.ToKey e) (Tracker3.ToKey x))
        l' = false
      /\ distinct_keys l'
  end.

(** The amount is a number. *)
Definition is_number (e : Tracker3.Expense) : Prop :=
  Tracker3.amount e <> S754_nan.

(** The number a listing line carries. *)
Definition line_idx (line : Tracker3.listing_line) : Z :=
  match line with
  | Tracker3.Skipping idx _ => idx
  | Tracker3.Entry idx _ _ _ _ => idx
  end.

End Aux.

(* ================================================================== *)
(** * Facts about the builtins                                         *)
(* ================================================================== *)

Module PyFacts.
Import Py Aux.

Lemma chars_str l : chars (str l) = l.
Proof. apply list_ascii_of_string_of_list_ascii. Qed.

Lemma str_chars s : str (chars s) = s.
Proof. apply string_of_list_ascii_of_string. Qed.

(** *** Stripping *)

Lemma lstrip_by_keep sp c l : sp c = false -> lstrip_by sp (c :: l) = c :: l.
Proof. intros H. simpl. now rewrite H. Qed.

Lemma rstrip_by_keep sp l c : sp c = false -> rstrip_by sp (l ++ [c]) = l ++ [c].
Proof.
  intros H. unfold rstrip_by. rewrite rev_app_distr. simpl.
  rewrite H. simpl. now rewrite rev_involutive.
Qed.

Lemma lstrip_by_idem sp l : lstrip_by sp (lstrip_by sp l) = lstrip_by sp l.
Proof.
  induction l as [|c l IH]; simpl; [reflexivity|].
  destruct (sp c) eqn:E; [exact IH|]. simpl. now rewrite E.
Qed.

(** What [lstrip_by] returns is empty or starts with a kept character. *)
Lemma lstrip_by_head sp l :
  lstrip_by sp l = [] \/ exists c l', lstrip_by sp l = c :: l' /\ sp c = false.
Proof.
  induction l as [|c l IH]; simpl; [now left|].
  destruct (sp c) eqn:E; [exact IH|]. right. now exists c, l.
Qed.

(** Stripping on the left removes a prefix. *)
Lemma lstrip_by_suffix sp l : exists p, l = p ++ lstrip_by sp l /\ forallb sp p = true.
Proof.
  induction l as [|c l [p [IH1 IH2]]]; simpl.
  - now exists [].
  - destruct (sp c) eqn:E.
    + exists (c :: p). simpl. rewrite E, IH2. split; [now f_equal|reflexivity].
    + now exists [].
Qed.

Lemma lstrip_by_all sp p l : forallb sp p = true -> lstrip_by sp (p ++ l) = lstrip_by sp l.
Proof.
  induction p as [|c p IH]; simpl; [reflexivity|].
  intros H. apply andb_prop in H as [H1 H2]. rewrite H1. now apply IH.
Qed.

Lemma lstrip_by_app_keep sp l c l' :
  sp c = false -> lstrip_by sp (l ++ c :: l') = lstrip_by sp (l ++ [c]) ++ l'.
Proof.
  intros H. induction l as [|d l IH]; simpl.
  - now rewrite H.
  - destruct (sp d); [exact IH|]. simpl. now rewrite <- app_assoc.
Qed.

Lemma lstripped_fix sp l : lstripped sp l -> lstrip_by sp l = l.
Proof. destruct l as [|c l]; simpl; [reflexivity|]. now intros ->. Qed.

Lemma lstrip_by_lstripped sp l : lstripped sp (lstrip_by sp l).
Proof.
  induction l as [|c l IH]; simpl; [exact I|].
  destruct (sp c) eqn:E; [exact IH|exact E].
Qed.

Lemma lstripped_prefix sp x y : lstripped sp (x ++ y) -> lstripped sp x.
Proof. destruct x; simpl; auto. Qed.

Lemma strip_by_idem sp l : strip_by sp (strip_by sp l) = strip_by sp l.
Proof.
  unfold strip_by, rstrip_by.
  set (a := lstrip_by sp l).
  set (b := lstrip_by sp (rev a)).
  assert (Hb : lstripped sp b) by apply lstrip_by_lstripped.
  assert (Hrb : lstripped sp (rev b)).
  { destruct (lstrip_by_suffix sp (rev a)) as (p & Hp & _).
    fold b in Hp. apply (lstripped_prefix sp _ (rev p)).
    rewrite <- rev_app_distr, <- Hp, rev_involutive.
    apply lstrip_by_lstripped. }
  rewrite (lstripped_fix sp (rev b) Hrb), rev_involutive.
  now rewrite (lstripped_fix sp b Hb).
Qed.

Lemma strip_idem s : strip (strip s) = strip s.
Proof. unfold strip. now rewrite chars_str, strip_by_idem. Qed.

(** *** Decimal numerals *)

Lemma digit_char_spec d :
  0 <= d < 10 ->
  is_decimal (digit_char d) = true /\ digit_val (digit_char d) = d
  /\ is_num_space (digit_char d) = false
  /\ lower_char (digit_char d) = digit_char d
  /\ (forall c, is_decimal c = false -> Ascii.eqb (digit_char d) c = false).
Proof.
  intros H.
  assert (E : d = 0 \/ d = 1 \/ d = 2 \/ d = 3 \/ d = 4 \/ d = 5 \/ d = 6
              \/ d = 7 \/ d = 8 \/ d = 9) by lia.
  assert (G : forall c, is_decimal c = true ->
                forall c', is_decimal c' = false -> Ascii.eqb c c' = false).
  { intros c Hc c' Hc'. destruct (Ascii.eqb_spec c c'); [congruence|reflexivity]. }
  repeat destruct E as [-> | E]; try subst d;
    (repeat split; [reflexivity ..|]; apply G; reflexivity).
Qed.

Lemma digits_value_snoc ds c :
  digits_value (ds ++ [c]) = 10 * digits_value ds + digit_val c.
Proof. unfold digits_value. now rewrite fold_left_app. Qed.

Lemma digits_fuel_spec fuel : forall n acc,
  0 <= n < 10 ^ Z.of_nat fuel ->
  exists ds, digits_fuel fuel n acc = ds ++ acc
             /\ forallb is_decimal ds = true /\ digits_value ds = n.
Proof.
  induction fuel as [|f IH]; intros n acc Hn.
  - exists []. simpl in *. repeat split. unfold digits_value. simpl. lia.
  - cbn [digits_fuel].
    assert (Hm : 0 <= n mod 10 < 10) by (apply Z.mod_pos_bound; lia).
    destruct (digit_char_spec _ Hm) as (Hd & Hv & _).
    destruct (Z.ltb_spec n 10) as [Hlt | Hge].
    + exists [digit_char (n mod 10)]. simpl. rewrite Hd. repeat split.
      unfold digits_value. simpl. rewrite Hv. rewrite Z.mod_small; lia.
    + destruct (IH (n / 10) (digit_char (n mod 10) :: acc)) as (ds & E & Hds & Hval).
      { split; [apply Z.div_pos; lia|].
        apply Z.div_lt_upper_bound; [lia|].
        rewrite Nat2Z.inj_succ, Z.pow_succ_r in Hn; lia. }
      exists (ds ++ [digit_char (n mod 10)]). rewrite E, <- app_assoc.
      split; [reflexivity|]. split.
      * rewrite forallb_app, Hds. simpl. now rewrite Hd.
      * rewrite digits_value_snoc, Hval, Hv.
        symmetry. apply Z.div_mod. lia.
Qed.

Lemma digits_nonempty n : digits n <> [].
Proof.
  unfold digits. cbn [digits_fuel].
  destruct (n <? 10); [discriminate|].
  set (f := Z.to_nat (Z.log2 n)). set (k := n / 10).
  set (acc := [digit_char (n mod 10)]).
  assert (G : forall f k acc, acc <> [] -> digits_fuel f k acc <> []).
  { clear. induction f as [|f IH]; intros k acc Hacc; simpl; [exact Hacc|].
    destruct (k <? 10); [discriminate|]. apply IH. discriminate. }
  apply G. discriminate.
Qed.

Lemma digits_spec n :
  0 <= n ->
  digits n <> [] /\ forallb is_decimal (digits n) = true
  /\ digits_value (digits n) = n.
Proof.
  intros Hn. split; [apply digits_nonempty|].
  unfold digits.
  destruct (digits_fuel_spec (S (Z.to_nat (Z.log2 n))) n []) as (ds & E & Hds & Hv).
  - split; [exact Hn|].
    destruct (Z.eq_dec n 0) as [-> | Hnz]; [reflexivity|].
    rewrite Nat2Z.inj_succ, Z2Nat.id by apply Z.log2_nonneg.
    assert (H2 : n < 2 ^ Z.succ (Z.log2 n)) by (apply Z.log2_spec; lia).
    assert (H10 : 2 ^ Z.succ (Z.log2 n) <= 10 ^ Z.succ (Z.log2 n)).
    { apply Z.pow_le_mono_l. lia. }
    lia.
  - rewrite E, app_nil_r. now split.
Qed.

Lemma digitpart_more_digits ds : forall acc k rest,
  forallb is_decimal ds = true ->
  digitpart_stops rest ->
  digitpart_more acc k (ds ++ rest)
  = (fold_left (fun a c => 10 * a + digit_val c) ds acc,
     k + Z.of_nat (length ds), rest).
Proof.
  induction ds as [|d ds IH]; intros acc k rest Hds Hrest.
  - simpl. rewrite Z.add_0_r.
    destruct rest as [|c rest]; [reflexivity|].
    destruct Hrest as [H1 H2]. simpl. now rewrite H1, H2.
  - simpl in Hds. apply andb_prop in Hds as [Hd Hds].
    cbn [app digitpart_more fold_left]. rewrite Hd.
    rewrite IH by assumption. f_equal. f_equal.
    change (length (d :: ds)) with (S (length ds)). lia.
Qed.

Lemma digitpart_digits ds rest :
  ds <> [] ->
  forallb is_decimal ds = true ->
  digitpart_stops rest ->
  digitpart (ds ++ rest)
  = Some (digits_value ds, Z.of_nat (length ds), rest).
Proof.
  intros Hne Hds Hrest. destruct ds as [|d ds]; [congruence|].
  simpl in Hds. apply andb_prop in Hds as [Hd Hds].
  cbn [app digitpart]. rewrite Hd.
  rewrite digitpart_more_digits by assumption.
  unfold digits_value. cbn [fold_left].
  replace (10 * 0 + digit_val d) with (digit_val d) by lia.
  replace (Z.of_nat (length (d :: ds))) with (1 + Z.of_nat (length ds))
    by (cbn [length]; lia).
  reflexivity.
Qed.

(** Reading a numeral with two decimals: [i] then [.d1d2]. *)
Lemma number_fixed i d1 d2 :
  0 <= i -> 0 <= d1 < 10 -> 0 <= d2 < 10 ->
  number (digits i ++ ["."%char; digit_char d1; digit_char d2])
  = Some (i * 10 ^ 2 + (10 * d1 + d2), 2, []).
Proof.
  intros Hi H1 H2.
  destruct (digits_spec i Hi) as (Hne & Hds & Hv).
  destruct (digit_char_spec d1 H1) as (Hc1 & Hv1 & _).
  destruct (digit_char_spec d2 H2) as (Hc2 & Hv2 & _).
  unfold number.
  rewrite digitpart_digits by (try assumption; simpl; auto).
  rewrite Hv. cbn [Ascii.eqb Bool.eqb].
  change (["."%char; digit_char d1; digit_char d2])
    with ("."%char :: [digit_char d1; digit_char d2] ++ []).
  cbv iota beta.
  pose proof (digitpart_digits [digit_char d1; digit_char d2] []) as E.
  rewrite app_nil_r in E. rewrite E;
    [| discriminate | simpl; now rewrite Hc1, Hc2 | exact I].
  unfold digits_value. cbn [fold_left length]. rewrite Hv1, Hv2.
  change (Z.of_nat 2) with 2.
  now replace (10 * (10 * 0 + d1) + d2) with (10 * d1 + d2) by lia.
Qed.

(** *** Reading back a formatted float *)

Lemma is_decimal_facts c :
  is_decimal c = true ->
  is_num_space c = false /\ is_space c = false /\ lower_char c = c
  /\ Ascii.eqb c "-"%char = false /\ Ascii.eqb c "+"%char = false
  /\ Ascii.eqb c "i"%char = false /\ Ascii.eqb c "n"%char = false.
Proof.
  destruct c as [[] [] [] [] [] [] [] []]; intros H;
    try discriminate H; repeat split.
Qed.

Lemma digits_head i :
  0 <= i -> exists h t, digits i = h :: t /\ is_decimal h = true.
Proof.
  intros Hi. destruct (digits_spec i Hi) as (Hne & Hds & _).
  destruct (digits i) as [|h t]; [congruence|].
  exists h, t. simpl in Hds. apply andb_prop in Hds as [Hh _]. now split.
Qed.

Lemma hundredths_nonneg m e : 0 <= hundredths m e.
Proof.
  unfold hundredths. destruct (0 <=? e) eqn:E.
  - apply Z.leb_le in E. apply Z.mul_nonneg_nonneg; [|lia].
    apply Z.mul_nonneg_nonneg; [lia|]. now apply Z.pow_nonneg.
  - assert (Hd : 0 < 2 ^ (- e)) by (apply Z.pow_pos_nonneg; lia).
    assert (Hq : 0 <= Z.pos m * 100 / 2 ^ (- e)) by (apply Z.div_pos; lia).
    destruct (2 * ((Z.pos m * 100) mod 2 ^ (- e)) ?= 2 ^ (- e)); [|lia|lia].
    destruct (Z.even _); lia.
Qed.

Lemma strip_fixed2 sp neg n :
  (forall c, is_decimal c = true -> sp c = false) ->
  sp "-"%char = false ->
  0 <= n -> strip_by sp (fixed2 neg n) = fixed2 neg n.
Proof.
  intros Hdec Hminus Hn. unfold strip_by.
  assert (Hi : 0 <= n / 100) by (apply Z.div_pos; lia).
  destruct (digits_head _ Hi) as (h & t & Eh & Hh).
  assert (H2 : 0 <= n mod 10 < 10) by (apply Z.mod_pos_bound; lia).
  destruct (digit_char_spec _ H2) as (Hd2 & _).
  rewrite lstripped_fix.
  - unfold fixed2.
    change ["."%char; digit_char (n mod 100 / 10); digit_char (n mod 10)]
      with (["."%char; digit_char (n mod 100 / 10)] ++ [digit_char (n mod 10)]).
    rewrite !app_assoc. apply rstrip_by_keep. now apply Hdec.
  - unfold fixed2. rewrite Eh. destruct neg; [exact Hminus|]. now apply Hdec.
Qed.

Lemma strip_num_fixed2 neg n :
  0 <= n -> strip_by is_num_space (fixed2 neg n) = fixed2 neg n.
Proof.
  apply strip_fixed2; [|reflexivity].
  intros c Hc. now destruct (is_decimal_facts c Hc).
Qed.

Lemma float_of_str_fixed2 neg n :
  0 <= n -> float_of_str (str (fixed2 neg n)) = Ok (float_of_decimal neg n (- 2)).
Proof.
  intros Hn. unfold float_of_str.
  rewrite chars_str, strip_num_fixed2 by assumption.
  assert (Hi : 0 <= n / 100) by (apply Z.div_pos; lia).
  assert (H1 : 0 <= n mod 100 / 10 < 10).
  { pose proof (Z.mod_pos_bound n 100 ltac:(lia)).
    split; [apply Z.div_pos; lia|apply Z.div_lt_upper_bound; lia]. }
  assert (H2 : 0 <= n mod 10 < 10) by (apply Z.mod_pos_bound; lia).
  destruct (digits_head _ Hi) as (h & t & Eh & Hh).
  destruct (is_decimal_facts h Hh) as (_ & _ & Hlow & Hminus & Hplus & Hi' & Hn').
  set (body := digits (n / 100)
               ++ ["."%char; digit_char (n mod 100 / 10); digit_char (n mod 10)]).
  assert (Hsign : sign (fixed2 neg n) = (neg, body)).
  { unfold fixed2. fold body. destruct neg; [reflexivity|].
    unfold body. rewrite Eh. simpl. now rewrite Hminus, Hplus. }
  rewrite Hsign.
  assert (Hw : forall w, String.eqb (str (map lower_char body)) (String "i" w) = false
                         /\ String.eqb (str (map lower_char body)) (String "n" w) = false).
  { intros w. unfold body. rewrite Eh. simpl. rewrite Hlow, Hi', Hn'. now split. }
  rewrite (proj1 (Hw "nf")), (proj1 (Hw "nfinity")), (proj2 (Hw "an")).
  cbn [orb]. unfold body. rewrite number_fixed by assumption.
  cbn [exponent]. do 2 f_equal.
  change (10 ^ 2) with 100.
  pose proof (Z.div_mod n 100 ltac:(lia)) as E1.
  pose proof (Z.div_mod (n mod 100) 10 ltac:(lia)) as E2.
  pose proof (Z.div_mod n 10 ltac:(lia)) as E3.
  pose proof (Z.mod_pos_bound n 100 ltac:(lia)).
  pose proof (Z.mod_pos_bound (n mod 100) 10 ltac:(lia)).
  lia.
Qed.

(** [float(format(x, ".2f"))] is [round(x, 2)]. *)
Lemma float_of_str_format_2f x : float_of_str (format_2f x) = Ok (round_2dp x).
Proof.
  destruct x as [s | s | | s m e].
  - change (format_2f (S754_zero s)) with (str (fixed2 s 0)).
    rewrite float_of_str_fixed2 by lia. reflexivity.
  - destruct s; reflexivity.
  - reflexivity.
  - cbn [format_2f round_2dp].
    apply float_of_str_fixed2, hundredths_nonneg.
Qed.

(** The formatted text carries no surrounding whitespace and is not empty. *)
Lemma strip_format_2f x : strip (format_2f x) = format_2f x.
Proof.
  assert (G : forall neg n, 0 <= n -> strip (str (fixed2 neg n)) = str (fixed2 neg n)).
  { intros neg n Hn. unfold strip. rewrite chars_str. f_equal.
    apply strip_fixed2; [|reflexivity|exact Hn].
    intros c Hc. now destruct (is_decimal_facts c Hc) as (_ & ? & _). }
  destruct x as [s | s | | s m e]; cbn [format_2f].
  - apply G. lia.
  - destruct s; reflexivity.
  - reflexivity.
  - apply G, hundredths_nonneg.
Qed.

Lemma truthy_format_2f x : truthy (format_2f x) = true.
Proof.
  assert (G : forall neg n, truthy (str (fixed2 neg n)) = true).
  { intros neg n. unfold fixed2.
    destruct neg; [reflexivity|]. simpl.
    destruct (digits (n / 100)); reflexivity. }
  destruct x as [s | s | | s m e]; cbn [format_2f]; try apply G.
  - destruct s; reflexivity.
  - reflexivity.
Qed.

Lemma str_or_empty s : str_or s "" = s.
Proof. now destruct s. Qed.

End PyFacts.

(* ================================================================== *)
(** * Record model: the round trip through a row                       *)
(* ================================================================== *)

Section RoundTrip.
Import Py PyFacts.

Lemma Tracker3_FromDict_ToDict (r : Tracker3.Expense) :
  Tracker3.FromDict (Tracker3.ToDict r)
  = Ok {| Tracker3.date := strip (Tracker3.date r);
          Tracker3.category := Some (strip (opt_or (Tracker3.category r) ""));
          Tracker3.amount := round_2dp (Tracker3.amount r);
          Tracker3.description :=
            Some (strip (opt_or (Tracker3.description r) "")) |}.
Proof.
  unfold Tracker3.FromDict, Tracker3.ToDict, get.
  repeat (rewrite ?lookup_insert_eq; rewrite ?lookup_insert_ne by discriminate).
  cbn [Tracker3.strip_val bind opt_or].
  unfold str_or at 1. rewrite truthy_format_2f, strip_format_2f.
  rewrite float_of_str_format_2f. cbn [bind].
  now rewrite !str_or_empty.
Qed.

Lemma Final_fromDict_toDict (r : Final.Expense) :
  Final.fromDict (Final.toDict r)
  = Ok (Some {| Final.date := Final.date r;
                Final.category := Final.category r;
                Final.amount := round_2dp (Final.amount r);
                Final.description := Final.description r |}).
Proof.
  unfold Final.fromDict. destruct (decide _) as [E | _].
  - exfalso. unfold Final.toDict in E. now apply insert_non_empty in E.
  - unfold Final.amount_of_row, Final.toDict, get.
    repeat (rewrite ?lookup_insert_eq; rewrite ?lookup_insert_ne by discriminate).
    rewrite float_of_str_format_2f. reflexivity.
Qed.

End RoundTrip.

(* ================================================================== *)
(** * Ledger: validation                                               *)
(* ================================================================== *)

Section Validation.
Import Py PyFacts Aux Tracker3.

Lemma str_of_int_head (n : Z) :
  exists c t, str_of_int n = String c t
              /\ (c = "-"%char \/ is_decimal c = true).
Proof.
  unfold str_of_int. destruct (n <? 0) eqn:E.
  - eexists _, _. split; [reflexivity|now left].
  - apply Z.ltb_ge in E. destruct (digits_head n E) as (h & t & Eh & Hh).
    rewrite Eh. eexists _, _. split; [reflexivity|now right].
Qed.

Lemma msg_not_leap_distinct (year : Z) : msg_not_leap year <> msg_invalid_date.
Proof.
  unfold msg_not_leap, msg_invalid_date.
  destruct (str_of_int_head year) as (c & t & E & Hc). rewrite E.
  intros H. injection H as H _. subst c.
  destruct Hc as [Hc | Hc]; discriminate Hc.
Qed.

(** A date in error decides the outcome of [ValidateExpenseData]. *)
Lemma ValidateExpenseData_date_error date_str amount_str msg :
  _ValidateDateStrict date_str = Ok (Some msg) -> truthy msg = true ->
  ValidateExpenseData date_str amount_str = Ok (Some msg).
Proof.
  intros H Hm. unfold ValidateExpenseData. rewrite H. simpl. now rewrite Hm.
Qed.

Lemma ValidateExpenseData_date_raises date_str amount_str e :
  _ValidateDateStrict date_str = Raise e ->
  ValidateExpenseData date_str amount_str = Raise e.
Proof. intros H. unfold ValidateExpenseData. now rewrite H. Qed.

(** With a date in order the amount decides. *)
Lemma ValidateExpenseData_amount date_str amount_str :
  _ValidateDateStrict date_str = Ok None ->
  ValidateExpenseData date_str amount_str
  = if negb (truthy amount_str) then Ok (Some msg_amount_required)
    else match float_of_str amount_str with
         | Ok x => if flt x fzero then Ok (Some msg_amount_negative)
                   else Ok None
         | Raise ValueError => Ok (Some msg_amount_number)
         | Raise e => Raise e
         end.
Proof. intros H. unfold ValidateExpenseData. now rewrite H. Qed.

(** [float] raises nothing but [ValueError]. *)
Lemma float_of_str_raises s e : float_of_str s = Raise e -> e = ValueError.
Proof.
  unfold float_of_str. destruct (sign _) as [neg l].
  repeat match goal with
         | |- context [if ?b then _ else _] => destruct b
         | |- context [match ?x with _ => _ end] => destruct x
         end; congruence.
Qed.

(** The messages of [_ValidateDateStrict] are not empty. *)
Lemma _ValidateDateStrict_msg date_str msg :
  _ValidateDateStrict date_str = Ok (Some msg) -> truthy msg = true.
Proof.
  unfold _ValidateDateStrict.
  assert (G : forall y, truthy (msg_not_leap y) = true).
  { intros y. unfold msg_not_leap.
    destruct (str_of_int_head y) as (c & t & E & _). now rewrite E. }
  repeat match goal with
         | |- context [if ?b then _ else _] => destruct b
         | |- context [match ?x with _ => _ end] => destruct x eqn:?
         | |- context [bind ?x _] => destruct x eqn:?; cbn [bind]
         end; intros H; inversion H; subst; try reflexivity; apply G.
Qed.

(** What [ValidateExpenseData] accepts parses to a float that is not
    below zero. *)
Lemma ValidateExpenseData_accepts date_str amount_str :
  ValidateExpenseData date_str amount_str = Ok None ->
  _ValidateDateStrict date_str = Ok None
  /\ exists x, float_of_str amount_str = Ok x /\ flt x fzero = false.
Proof.
  unfold ValidateExpenseData.
  destruct (_ValidateDateStrict date_str) as [[msg|]|e] eqn:E; cbn [bind].
  - change (default "" (Some msg)) with msg.
    rewrite (_ValidateDateStrict_msg _ _ E). discriminate.
  - change (truthy (default "" None)) with false. cbv iota.
    destruct (truthy amount_str); cbn [negb]; [|discriminate].
    destruct (float_of_str amount_str) as [x|e] eqn:Ex.
    + destruct (flt x fzero) eqn:Hx; [discriminate|].
      intros _. split; [reflexivity|]. now exists x.
    + destruct e; discriminate.
  - discriminate.
Qed.

(** A reason [ValidateExpenseData] returns is not empty. *)
Lemma ValidateExpenseData_msg date_str amount_str msg :
  ValidateExpenseData date_str amount_str = Ok (Some msg) -> truthy msg = true.
Proof.
  unfold ValidateExpenseData.
  destruct (_ValidateDateStrict date_str) as [[m|]|e] eqn:E; cbn [bind].
  - change (default "" (Some m)) with m.
    rewrite (_ValidateDateStrict_msg _ _ E).
    intros H. injection H as <-. apply (_ValidateDateStrict_msg _ _ E).
  - change (truthy (default "" None)) with false. cbv iota.
    destruct (truthy amount_str); cbn [negb].
    + destruct (float_of_str amount_str) as [x|[]];
        try destruct (flt x fzero); intros H; inversion H; reflexivity.
    + intros H; inversion H; reflexivity.
  - discriminate.
Qed.

(** What [AddExpenseInteractive] does, by the outcome of the validation of
    the stripped date and amount. *)
Lemma AddExpenseInteractive_spec self in_date in_category in_amount in_description :
  AddExpenseInteractive self in_date in_category in_amount in_description
  = match ValidateExpenseData (strip in_date) (strip in_amount) with
    | Ok None =>
        let expense :=
          {| date := strip in_date;
             category := Some (strip in_category);
             amount := lit (strip in_amount);
             description := Some (strip in_description) |} in
        Ok (with_expenses self (expenses self ++ [expense]), Added expense)
    | Ok (Some error) => Ok (self, AddCancelled error)
    | Raise e => Raise e
    end.
Proof.
  unfold AddExpenseInteractive.
  destruct (ValidateExpenseData _ _) as [[msg|]|e] eqn:E; cbn [bind].
  - change (default "" (Some msg)) with msg.
    now rewrite (ValidateExpenseData_msg _ _ _ E).
  - change (truthy (default "" None)) with false. cbv iota.
    destruct (ValidateExpenseData_accepts _ _ E) as (_ & x & Ex & _).
    unfold lit. rewrite Ex. cbn [bind]. now rewrite !str_or_empty.
  - reflexivity.
Qed.

(** C2: [validate] applies its date rules in order and has a message of its
    own for 29 February of a common year: ["2024-02-29"] with amount ["10"]
    is accepted, ["2023-02-29"] gets the leap-year message, which differs
    from the invalid-calendar-date message whatever the year, and
    ["2023-02-30"] gets the invalid-calendar-date message. *)
Theorem C2_leap_year_boundary :
  ValidateExpenseData "2024-02-29" "10" = Ok None
  /\ ValidateExpenseData "2023-02-29" "10"
     = Ok (Some "2023 is not a leap year; February 29 is invalid.")
  /\ ValidateExpenseData "2023-02-30" "10" = Ok (Some msg_invalid_date)
  /\ (forall year, msg_not_leap year <> msg_invalid_date).
Proof.
  split; [reflexivity|]. split; [reflexivity|]. split; [reflexivity|].
  exact msg_not_leap_distinct.
Qed.

(** C7, at the input where the code leaves the claim: for the date
    [²²²²-01-01] every part passes [isdigit], [int] then raises
    [ValueError], and [AddExpenseInteractive] raises it instead of returning
    a reason. *)
Theorem C7_add_raises_on_superscript_digits self in_category in_description :
  _ValidateDateStrict date_superscripts = Raise ValueError
  /\ AddExpenseInteractive self date_superscripts in_category "10" in_description
     = Raise ValueError.
Proof. split; reflexivity. Qed.

(** C8: for every date text [d] that [_ValidateDateStrict] accepts,
    [validate(d, "-0.01")] is the negative-amount error and
    [validate(d, "0")] is no error; more generally an amount text that
    parses is rejected as negative exactly when its value is below zero.
    [Final.validateAmount] decides the same way: ["0"] is returned, after
    ["-0.01"] it warns and asks again. *)
Theorem C8_negative_and_zero_amount (d : string) :
  _ValidateDateStrict d = Ok None ->
  ValidateExpenseData d "-0.01" = Ok (Some msg_amount_negative)
  /\ ValidateExpenseData d "0" = Ok None
  /\ (forall s x, truthy s = true -> float_of_str s = Ok x ->
        ValidateExpenseData d s
        = Ok (if flt x fzero then Some msg_amount_negative else None))
  /\ (forall rest, Final.validateAmount ("0" :: rest) = Ok (Some fzero, [], rest))
  /\ (forall rest, Final.validateAmount ("-0.01" :: rest)
        = bind (Final.validateAmount rest)
            (fun r => let '(v, evs, rest') := r in
                      Ok (v, Final.AmountNegative :: evs, rest'))).
Proof.
  intros Hd. repeat split.
  - rewrite (ValidateExpenseData_amount _ _ Hd). reflexivity.
  - rewrite (ValidateExpenseData_amount _ _ Hd). reflexivity.
  - intros s x Hs Hx. rewrite (ValidateExpenseData_amount _ _ Hd), Hs, Hx.
    cbn [negb]. now destruct (flt x fzero).
Qed.

Lemma C8_witness :
  _ValidateDateStrict "2024-01-05" = Ok None
  /\ ValidateExpenseData "2024-01-05" "-0.01" = Ok (Some msg_amount_negative)
  /\ ValidateExpenseData "2024-01-05" "0" = Ok None.
Proof.
  split; [reflexivity|].
  destruct (C8_negative_and_zero_amount "2024-01-05" eq_refl) as (H1 & H2 & _).
  split; [exact H1|exact H2].
Defined.

End Validation.

(* ================================================================== *)
(** * Record model: the round trip of a record                         *)
(* ================================================================== *)

Section RoundTripOfRecords.
Import Py PyFacts Aux.

(** C1, as the claim states it, fails in [expenseTracker3.py]: the record
    with category [" food "] comes back with category ["food"]. *)
Lemma C1_counterexample_tracker3_strips :
  let r := Aux.expense3 "2024-01-05" " food " "5" "lunch" in
  Tracker3._ValidateDateStrict (Tracker3.date r) = Ok None
  /\ Aux.nonneg (Tracker3.amount r) = true
  /\ Tracker3.FromDict (Tracker3.ToDict r)
     <> Ok {| Tracker3.date := Tracker3.date r;
              Tracker3.category := Tracker3.category r;
              Tracker3.amount := round_2dp (Tracker3.amount r);
              Tracker3.description := Tracker3.description r |}.
Proof.
  split; [reflexivity|]. split; [reflexivity|].
  rewrite Tracker3_FromDict_ToDict. intros H. injection H as _ H _.
  vm_compute in H. discriminate H.
Qed.

(** A record whose text fields are present and stripped, as
    [AddExpenseInteractive] and [FromDict] make them. *)
Lemma FromDict_stripped row e :
  Tracker3.FromDict row = Ok e -> stripped_fields e.
Proof.
  unfold Tracker3.FromDict, Tracker3.strip_val.
  destruct (get row "date" "") as [d|]; [|discriminate].
  destruct (get row "category" "") as [c|]; [|discriminate].
  destruct (get row "description" "") as [t|]; [|discriminate].
  cbn [bind]. destruct (float_of_str _); [|discriminate]. cbn [bind].
  intros H. injection H as <-. rewrite !str_or_empty.
  now exists d, c, t.
Qed.

Lemma AddExpenseInteractive_stripped self a b c d self' e :
  Tracker3.AddExpenseInteractive self a b c d = Ok (self', Tracker3.Added e) ->
  stripped_fields e.
Proof.
  rewrite AddExpenseInteractive_spec.
  destruct (Tracker3.ValidateExpenseData _ _) as [[msg|]|err];
    try discriminate.
  intros H. injection H as _ <-. now exists a, b, d.
Qed.

Lemma round_trip_stripped e :
  stripped_fields e ->
  Tracker3.FromDict (Tracker3.ToDict e)
  = Ok {| Tracker3.date := Tracker3.date e;
          Tracker3.category := Tracker3.category e;
          Tracker3.amount := round_2dp (Tracker3.amount e);
          Tracker3.description := Tracker3.description e |}.
Proof.
  intros (d & c & t & Hd & Hc & Ht).
  rewrite Tracker3_FromDict_ToDict, Hd, Hc, Ht. cbn [opt_or].
  now rewrite !str_or_empty, !strip_idem.
Qed.

(** C1, amended: reading back the row written for a record [r] gives a
    record whose amount is [r]'s amount rounded to two decimal places and
    whose date, category and description are [r]'s verbatim in
    [expenseTrackerFinal.py], and [r]'s with the surrounding whitespace
    stripped in [expenseTracker3.py] (an absent category or description
    reading back as the empty text); there the text fields come back
    verbatim for every record whose fields are stripped, as are those of
    every record made by [FromDict] or [AddExpenseInteractive]. *)
Theorem C1_round_trip :
  (forall r : Final.Expense,
     Final.fromDict (Final.toDict r)
     = Ok (Some {| Final.date := Final.date r;
                   Final.category := Final.category r;
                   Final.amount := round_2dp (Final.amount r);
                   Final.description := Final.description r |}))
  /\ (forall r : Tracker3.Expense,
        Tracker3.FromDict (Tracker3.ToDict r)
        = Ok {| Tracker3.date := strip (Tracker3.date r);
                Tracker3.category :=
                  Some (strip (opt_or (Tracker3.category r) ""));
                Tracker3.amount := round_2dp (Tracker3.amount r);
                Tracker3.description :=
                  Some (strip (opt_or (Tracker3.description r) "")) |})
  /\ (forall r : Tracker3.Expense,
        stripped_fields r ->
        Tracker3.FromDict (Tracker3.ToDict r)
        = Ok {| Tracker3.date := Tracker3.date r;
                Tracker3.category := Tracker3.category r;
                Tracker3.amount := round_2dp (Tracker3.amount r);
                Tracker3.description := Tracker3.description r |})
  /\ (forall row r, Tracker3.FromDict row = Ok r -> stripped_fields r)
  /\ (forall self a b c d self' r,
        Tracker3.AddExpenseInteractive self a b c d
        = Ok (self', Tracker3.Added r) ->
        stripped_fields r).
Proof.
  split; [exact Final_fromDict_toDict|].
  split; [exact Tracker3_FromDict_ToDict|].
  split; [exact round_trip_stripped|].
  split; [exact FromDict_stripped|exact AddExpenseInteractive_stripped].
Qed.

End RoundTripOfRecords.

(* ================================================================== *)
(** * Persistence gateway: a store that does not exist                 *)
(* ================================================================== *)

Section MissingStore.
Import Py.

(** C9: when no file exists at the path of the store, loading the expenses
    returns the empty list, and loading the budget leaves the manager as it
    is, so that a manager fresh from [__init__] holds the default [0.0];
    in [expenseTracker3.py] and in [expenseTrackerFinal.py] alike. *)
Theorem C9_missing_store (fs : filesystem)
    (st : Tracker3.ExpenseStorage) (path : option string)
    (bm : Tracker3.BudgetManager)
    (st' : Final.ExpenseStorage) (bm' : Final.BudgetManager) :
  fs !! opt_or path (Tracker3.csv_path st) = None ->
  fs !! Tracker3.budget_json_path bm = None ->
  fs !! Final.filePath st' = None ->
  fs !! Final.budgetFile bm' = None ->
  Tracker3.LoadExpensesFromCsv fs st path = []
  /\ Tracker3.LoadBudgetOnStart fs bm = bm
  /\ Tracker3.monthly_budget
       (Tracker3.LoadBudgetOnStart fs
          (Tracker3.BudgetManager_init (Tracker3.budget_json_path bm))) = fzero
  /\ Final.loadFromCsv fs st' = []
  /\ Final.loadBudget fs bm' = bm'
  /\ Final.monthlyBudget
       (Final.loadBudget fs (Final.BudgetManager_init (Final.budgetFile bm')))
     = fzero.
Proof.
  intros H1 H2 H3 H4.
  unfold Tracker3.LoadExpensesFromCsv, Tracker3.LoadBudgetOnStart,
    Final.loadFromCsv, Final.loadBudget.
  cbn [Tracker3.BudgetManager_init Tracker3.budget_json_path
       Final.BudgetManager_init Final.budgetFile].
  rewrite H1, H2, H3, H4. repeat split.
Qed.

Lemma C9_witness :
  Tracker3.LoadExpensesFromCsv ∅ {| Tracker3.csv_path := "expenses.csv" |} None = []
  /\ Tracker3.monthly_budget
       (Tracker3.LoadBudgetOnStart ∅ (Tracker3.BudgetManager_init "budget.json"))
     = fzero.
Proof.
  destruct (C9_missing_store ∅ {| Tracker3.csv_path := "expenses.csv" |} None
              (Tracker3.BudgetManager_init "budget.json")
              {| Final.filePath := "expenses.csv" |}
              (Final.BudgetManager_init "budget.json")
              (lookup_empty _) (lookup_empty _) (lookup_empty _)
              (lookup_empty _)) as (H1 & _ & H3 & _).
  split; [exact H1|exact H3].
Defined.

End MissingStore.

(* ================================================================== *)
(** * Ledger: deletion by display index                                *)
(* ================================================================== *)

Section Deletion.
Import Py PyFacts Aux.

(** [int] raises nothing but [ValueError]. *)
Lemma int_raises s e : int s = Raise e -> e = ValueError.
Proof.
  unfold int. destruct (sign _) as [neg l].
  destruct (digitpart l) as [[[v n] [|c r]]|]; congruence.
Qed.


Section Tracker3Delete.
Variable float_str : float -> string.
Import Tracker3.

(** Once the entries are listed, [DeleteExpense] is decided by the text of
    the index. *)
Lemma DeleteExpense_listed self in_index lines :
  show_entries float_str 1 (expenses self) = Ok lines ->
  DeleteExpense float_str self in_index
  = match expenses self with
    | [] => Ok (self, NoExpenses)
    | _ =>
        match int (strip in_index) with
        | Ok index =>
            if (index <? 1) || (index >? Z.of_nat (length (expenses self)))
            then Ok (self, InvalidNumber)
            else match expenses self !! Z.to_nat (index - 1) with
                 | Some removed =>
                     Ok (with_expenses self
                           (delete (Z.to_nat (index - 1)) (expenses self)),
                         Deleted removed)
                 | None => Raise IndexError
                 end
        | Raise _ => Ok (self, InvalidInteger)
        end
    end.
Proof.
  intros H. unfold DeleteExpense. rewrite H. cbn [bind].
  destruct (expenses self) as [|x0 l0]; [reflexivity|].
  destruct (int (strip in_index)) as [i|err] eqn:E; [reflexivity|].
  now rewrite (int_raises _ _ E).
Qed.

End Tracker3Delete.



End Deletion.

(* ================================================================== *)
(** * Ledger: import and merge                                         *)
(* ================================================================== *)

Section ImportMerge.
Import Py PyFacts Aux Tracker3.

Lemma keys_of_init expenses : keys_of (map ToKey expenses) expenses.
Proof.
  intros k. unfold key_in.
  induction expenses as [|x l IH]; simpl; [reflexivity|]. now rewrite IH.
Qed.

Lemma keys_of_append existing_keys expenses e :
  keys_of existing_keys expenses ->
  keys_of (ToKey e :: existing_keys) (expenses ++ [e]).
Proof.
  intros H k. unfold keys_of, key_in in *. simpl.
  rewrite existsb_app, H. simpl.
  rewrite orb_false_r. apply orb_comm.
Qed.

Lemma merge_loop_refines imported : forall expenses existing_keys added,
  keys_of existing_keys expenses ->
  exists keys',
    merge_loop imported expenses existing_keys added
    = (import_merge imported expenses, keys',
       added + (Z.of_nat (length (import_merge imported expenses))
                - Z.of_nat (length expenses))).
Proof.
  induction imported as [|e imported IH]; intros expenses keys added Hk.
  - exists keys. simpl. f_equal. lia.
  - simpl. rewrite (Hk (ToKey e)).
    destruct (existsb _ expenses) eqn:E; cbn [negb].
    + apply IH, Hk.
    + destruct (IH (expenses ++ [e]) (ToKey e :: keys) (added + 1)
                  (keys_of_append _ _ e Hk)) as [keys' ->].
      exists keys'. f_equal. rewrite length_app. simpl. lia.
Qed.

(** What the merge appends is taken, in order, from the incoming records. *)
Lemma import_merge_appends incoming : forall current,
  exists appended, import_merge incoming current = current ++ appended
                   /\ sublist appended incoming.
Proof.
  induction incoming as [|e incoming IH]; intros current; simpl.
  - exists []. rewrite app_nil_r. split; [reflexivity|constructor].
  - destruct (existsb _ current).
    + destruct (IH current) as (app & -> & Hs).
      exists app. split; [reflexivity|]. now constructor.
    + destruct (IH (current ++ [e])) as (app & -> & Hs).
      exists (e :: app). rewrite <- app_assoc. split; [reflexivity|].
      now constructor.
Qed.

(** [==] holds between a float and itself, NaN apart. *)
Lemma feq_refl x : x <> S754_nan -> feq x x = true.
Proof.
  destruct x as [s | [] | | [] m e]; intros H; try reflexivity;
    try (now contradiction H);
    unfold feq, SFeqb; cbn [SFcompare];
    now rewrite Z.compare_refl, Pos.compare_cont_refl.
Qed.



End ImportMerge.

(* ================================================================== *)
(** * Ledger: totals and the report by category                        *)
(* ================================================================== *)

Section Reports.
Import Py PyFacts Aux Tracker3.

Lemma fsum_snoc l a : fsum (l ++ [a]) = fadd (fsum l) a.
Proof. unfold fsum. now rewrite fold_left_app. Qed.


(** *** The dict of totals *)

Lemma totals_get_add_eq k a d :
  totals_get k (totals_add k a d)
  = Some (fadd (default fzero (totals_get k d)) a).
Proof.
  induction d as [|[k' v] d IH]; simpl.
  - now rewrite String.eqb_refl.
  - destruct (String.eqb k' k) eqn:E; simpl; rewrite E; [reflexivity|exact IH].
Qed.

Lemma totals_get_add_ne k k' a d :
  k <> k' -> totals_get k' (totals_add k a d) = totals_get k' d.
Proof.
  intros Hne. induction d as [|[k0 v] d IH]; simpl.
  - destruct (String.eqb_spec k k'); [contradiction|reflexivity].
  - destruct (String.eqb_spec k0 k) as [-> | Hk]; simpl.
    + destruct (String.eqb_spec k k'); [contradiction|reflexivity].
    + destruct (String.eqb k0 k'); [reflexivity|exact IH].
Qed.

Lemma totals_get_None k d : totals_get k d = None <-> k ∉ d.*1.
Proof.
  induction d as [|[k' v] d IH]; simpl.
  - split; [intros _; apply not_elem_of_nil|reflexivity].
  - destruct (String.eqb_spec k' k) as [-> | Hk].
    + split; [discriminate|]. intros H. exfalso. apply H. left.
    + rewrite IH. rewrite not_elem_of_cons. split; [intros H|intros [_ H]]; auto.
Qed.

Lemma totals_add_keys k a d :
  (totals_add k a d).*1
  = if totals_get k d is Some _ then d.*1 else d.*1 ++ [k].
Proof.
  induction d as [|[k' v] d IH]; [reflexivity|].
  cbn [totals_add totals_get].
  destruct (String.eqb k' k) eqn:E; [reflexivity|].
  rewrite !fmap_cons, IH. cbn [fst].
  now destruct (totals_get k d).
Qed.

Lemma totals_add_NoDup k a d : NoDup d.*1 -> NoDup (totals_add k a d).*1.
Proof.
  intros H. rewrite totals_add_keys.
  destruct (totals_get k d) eqn:E; [exact H|].
  apply NoDup_app. split; [exact H|]. split; [|apply NoDup_singleton].
  intros x Hx Hx'. apply list_elem_of_singleton in Hx'. subst x.
  now apply totals_get_None in E.
Qed.

Lemma totals_get_elem k v d :
  NoDup d.*1 -> (k, v) ∈ d <-> totals_get k d = Some v.
Proof.
  induction d as [|[k' v'] d IH]; simpl; intros Hnd.
  - split; [intros H; inversion H|discriminate].
  - apply NoDup_cons in Hnd as [Hk' Hnd].
    destruct (String.eqb_spec k' k) as [-> | Hk].
    + split.
      * intros H. apply elem_of_cons in H as [H | H]; [congruence|].
        exfalso. apply Hk'. apply list_elem_of_fmap. now exists (k, v).
      * intros H. injection H as ->. left.
    + rewrite <- IH by assumption. rewrite elem_of_cons.
      split; [intros [H | H]; [congruence|exact H]|now right].
Qed.

Section Totals.
Context {A : Type} (key : A -> string) (amt : A -> float).

Lemma group_by_snoc k l e :
  group_by key k (l ++ [e])
  = group_by key k l ++ (if decide (key e = k) then [e] else []).
Proof. unfold group_by. now rewrite filter_app. Qed.

Lemma totals_of_step d l e :
  totals_of key amt d l ->
  totals_of key amt (totals_add (key e) (amt e) d) (l ++ [e]).
Proof.
  intros [Hnd Hget]. split; [now apply totals_add_NoDup|].
  intros k. rewrite group_by_snoc.
  destruct (decide (key e = k)) as [<- | Hne].
  - rewrite totals_get_add_eq, Hget.
    destruct (group_by key (key e) l) as [|x g]; simpl.
    + reflexivity.
    + f_equal. rewrite map_app. cbn [map].
      now rewrite app_comm_cons, fsum_snoc.
  - rewrite totals_get_add_ne by assumption. rewrite Hget, app_nil_r.
    reflexivity.
Qed.

Lemma totals_of_fold l2 : forall d l1,
  totals_of key amt d l1 ->
  totals_of key amt
    (fold_left (fun totals x => totals_add (key x) (amt x) totals) l2 d)
    (l1 ++ l2).
Proof.
  induction l2 as [|e l2 IH]; intros d l1 H; simpl.
  - now rewrite app_nil_r.
  - replace (l1 ++ e :: l2) with ((l1 ++ [e]) ++ l2)
      by (now rewrite <- app_assoc).
    apply IH. now apply totals_of_step.
Qed.

(** Every pair of the dict is a group of the ledger with its float sum;
    every record is in the group of its key. *)
Lemma totals_groups l :
  let d := fold_left (fun totals x => totals_add (key x) (amt x) totals) l [] in
  NoDup d.*1
  /\ (forall k v, (k, v) ∈ d ->
        group_by key k l <> [] /\ v = fsum (map amt (group_by key k l)))
  /\ (forall e, e ∈ l -> key e ∈ d.*1).
Proof.
  intros d.
  destruct (totals_of_fold l [] [] (conj (NoDup_nil_2) (fun _ => eq_refl)))
    as [Hnd Hget].
  fold d in Hnd, Hget. cbn [app] in Hget.
  split; [exact Hnd|]. split.
  - intros k v H. apply (totals_get_elem _ _ _ Hnd) in H.
    rewrite Hget in H. destruct (group_by key k l); [discriminate|].
    split; [discriminate|congruence].
  - intros e He.
    destruct (totals_get (key e) d) as [v|] eqn:E.
    + apply (totals_get_elem _ _ _ Hnd) in E.
      apply list_elem_of_fmap. now exists (key e, v).
    + rewrite Hget in E.
      assert (Hin : e ∈ group_by key (key e) l).
      { unfold group_by. apply list_elem_of_filter. now split. }
      destruct (group_by key (key e) l); [inversion Hin|discriminate].
Qed.

(** *** The groups partition the ledger *)





End Totals.

Lemma category_totals_groups l :
  NoDup (category_totals l).*1
  /\ (forall k v, (k, v) ∈ category_totals l ->
        group k l <> [] /\ v = fsum (map amount (group k l)))
  /\ (forall e, e ∈ l -> category_key e ∈ (category_totals l).*1).
Proof. exact (totals_groups category_key amount l). Qed.

(** The dict of [expenseTrackerFinal.py] is kept the same way. *)
Lemma Final_totals_add cat amt d :
  Final.totals_add cat amt d = totals_add cat amt d.
Proof. reflexivity. Qed.

Lemma Final_category_totals_groups l :
  NoDup (Final.category_totals l).*1
  /\ (forall k v, (k, v) ∈ Final.category_totals l ->
        final_group k l <> []
        /\ v = fsum (map Final.amount (final_group k l)))
  /\ (forall e, e ∈ l -> Final.category_key e ∈ (Final.category_totals l).*1).
Proof. exact (totals_groups Final.category_key Final.amount l). Qed.

(** *** The order of the report *)

Lemma compare_chars_antisym a : forall b,
  compare_chars b a = CompOpp (compare_chars a b).
Proof.
  induction a as [|x a IH]; intros [|y b]; simpl; try reflexivity.
  rewrite (N.compare_antisym (code x) (code y)).
  destruct (code x ?= code y)%N; simpl; auto.
Qed.

Lemma str_le_total a b : str_le a b = false -> str_le b a = true.
Proof.
  unfold str_le, str_compare. rewrite (compare_chars_antisym (chars a)).
  now destruct (compare_chars (chars a) (chars b)).
Qed.

Lemma insert_by_lower_perm x l : insert_by_lower x l ≡ₚ x :: l.
Proof.
  induction l as [|y l IH]; simpl; [reflexivity|].
  destruct (str_le _ _); [reflexivity|].
  rewrite IH. apply Permutation_swap.
Qed.

Lemma sorted_by_lower_perm l : sorted_by_lower l ≡ₚ l.
Proof.
  induction l as [|x l IH]; simpl; [reflexivity|].
  rewrite insert_by_lower_perm. now constructor.
Qed.

Lemma insert_by_lower_sorted x l :
  Sorted le_lower l -> Sorted le_lower (insert_by_lower x l).
Proof.
  induction 1 as [|y l Hs IH Hhd]; simpl.
  - repeat constructor.
  - destruct (str_le (lower x.1) (lower y.1)) eqn:E.
    + constructor; [now constructor|]. now constructor.
    + constructor; [exact IH|].
      apply str_le_total in E.
      destruct l as [|z l]; simpl.
      * now constructor.
      * destruct (str_le (lower x.1) (lower z.1)); constructor;
          [exact E|]. now inversion Hhd.
Qed.

Lemma sorted_by_lower_sorted l : Sorted le_lower (sorted_by_lower l).
Proof.
  induction l as [|x l IH]; simpl; [constructor|].
  now apply insert_by_lower_sorted.
Qed.

(** The report has the pairs of the dict, ordered. *)
Lemma CategorizeExpenseReport_perm self :
  CategorizeExpenseReport self ≡ₚ category_totals (expenses self).
Proof.
  unfold CategorizeExpenseReport.
  destruct (expenses self) eqn:E; [reflexivity|]. apply sorted_by_lower_perm.
Qed.

Lemma insert_by_key_perm x l : Final.insert_by_key x l ≡ₚ x :: l.
Proof.
  induction l as [|y l IH]; simpl; [reflexivity|].
  destruct (str_le _ _); [reflexivity|].
  rewrite IH. apply Permutation_swap.
Qed.

Lemma insert_by_key_sorted x l :
  Sorted le_key l -> Sorted le_key (Final.insert_by_key x l).
Proof.
  induction 1 as [|y l Hs IH Hhd]; simpl.
  - repeat constructor.
  - destruct (str_le x.1 y.1) eqn:E.
    + constructor; [now constructor|]. now constructor.
    + constructor; [exact IH|].
      apply str_le_total in E.
      destruct l as [|z l]; simpl.
      * now constructor.
      * destruct (str_le x.1 z.1); constructor; [exact E|].
        now inversion Hhd.
Qed.

Lemma showByCategory_perm self :
  Final.showByCategory self ≡ₚ Final.category_totals (Final.expenses self).
Proof.
  unfold Final.showByCategory.
  destruct (Final.expenses self) as [|e0 l0]; [reflexivity|].
  generalize (Final.category_totals (e0 :: l0)). intros d.
  induction d as [|x d IH]; simpl; [reflexivity|].
  rewrite insert_by_key_perm. now constructor.
Qed.

Lemma showByCategory_sorted self : Sorted le_key (Final.showByCategory self).
Proof.
  unfold Final.showByCategory.
  destruct (Final.expenses self) as [|e0 l0]; [constructor|].
  generalize (Final.category_totals (e0 :: l0)). intros d.
  induction d as [|x d IH]; simpl; [constructor|].
  now apply insert_by_key_sorted.
Qed.

(** C4, as the claim states it, fails: on the ledger with the categories
    ["Food"], [" food "] and the empty text and the amounts 10, 5 and 3 the
    report has three lines, ["Food"] and ["food"] being two labels, and not
    the two lines of the claim. *)
Lemma C4_counterexample_case_sensitive_groups :
  printed (CategorizeExpenseReport ledger_food)
  <> [("Food", "15.00"); ("Uncategorized", "3.00")]
  /\ printed (Final.showByCategory final_food)
     <> [("Food", "15.00"); ("Uncategorized", "3.00")].
Proof. split; vm_compute; discriminate. Qed.

(** C4, amended: the report groups the records by the whitespace-trimmed
    category text, compared as it is (labels that differ in letter case are
    different groups), with the label ["Uncategorized"] for a blank or
    absent category (in [expenseTrackerFinal.py]: for an empty or absent
    one): the labels are distinct, every record's label is there, every
    line is the non-empty group of its label with the float sum of the
    group's amounts, and the lines are ordered by lower-cased label (in
    [expenseTrackerFinal.py]: by label). On the example the report of
    [expenseTracker3.py] is ["Food"] 10.00, ["food"] 5.00,
    ["Uncategorized"] 3.00, that of [expenseTrackerFinal.py] is ["Food"],
    ["Uncategorized"], ["food"]. *)
Theorem C4_report_by_category :
  (forall self,
     let report := CategorizeExpenseReport self in
     let l := expenses self in
     NoDup report.*1
     /\ (forall e, e ∈ l -> category_key e ∈ report.*1)
     /\ (forall k v, (k, v) ∈ report ->
           group k l <> [] /\ v = fsum (map amount (group k l)))
     /\ Sorted le_lower report)
  /\ (forall e,
        category_key e
        = let c := strip (opt_or (category e) "") in
          if truthy c then c else "Uncategorized")
  /\ (forall self,
        let report := Final.showByCategory self in
        let l := Final.expenses self in
        NoDup report.*1
        /\ (forall e, e ∈ l -> Final.category_key e ∈ report.*1)
        /\ (forall k v, (k, v) ∈ report ->
              final_group k l <> []
              /\ v = fsum (map Final.amount (final_group k l)))
        /\ Sorted le_key report)
  /\ (forall e,
        Final.category_key e
        = if truthy (opt_or (Final.category e) "")
          then strip (opt_or (Final.category e) "") else "Uncategorized")
  /\ printed (CategorizeExpenseReport ledger_food)
     = [("Food", "10.00"); ("food", "5.00"); ("Uncategorized", "3.00")]
  /\ printed (Final.showByCategory final_food)
     = [("Food", "10.00"); ("Uncategorized", "3.00"); ("food", "5.00")].
Proof.
  split; [|split; [reflexivity|split;
             [|split; [|split; vm_compute; reflexivity]]]].
  - intros self report l.
    pose proof (CategorizeExpenseReport_perm self) as Hp. fold report l in Hp.
    destruct (category_totals_groups l) as (Hnd & Hgr & Hcov).
    assert (Hk : report.*1 ≡ₚ (category_totals l).*1) by now rewrite Hp.
    repeat split.
    + now rewrite Hk.
    + intros e He. rewrite Hk. now apply Hcov.
    + apply (Hgr k v). now rewrite <- Hp.
    + apply (Hgr k v). now rewrite <- Hp.
    + unfold report, CategorizeExpenseReport.
      destruct (expenses self); [constructor|apply sorted_by_lower_sorted].
  - intros self report l.
    pose proof (showByCategory_perm self) as Hp. fold report l in Hp.
    destruct (Final_category_totals_groups l) as (Hnd & Hgr & Hcov).
    assert (Hk : report.*1 ≡ₚ (Final.category_totals l).*1) by now rewrite Hp.
    repeat split.
    + now rewrite Hk.
    + intros e He. rewrite Hk. now apply Hcov.
    + apply (Hgr k v). now rewrite <- Hp.
    + apply (Hgr k v). now rewrite <- Hp.
    + apply showByCategory_sorted.
  - intros e. unfold Final.category_key.
    destruct (Final.category e) as [c|]; [|reflexivity].
    cbn [opt_or]. now rewrite str_or_empty.
Qed.



End Reports.

(* ================================================================== *)
(** * Ledger: the amounts of the stored records                        *)
(* ================================================================== *)

Section Amounts.
Import Py PyFacts Aux Tracker3.

(** A float that is not below zero is at least zero, unless it is NaN. *)
Lemma nonneg_of_not_lt x :
  flt x fzero = false -> x <> S754_nan -> nonneg x = true.
Proof.
  destruct x as [s | [] | | [] m e]; intros H Hn;
    try reflexivity; try discriminate H. now contradiction Hn.
Qed.

(** A [DeleteExpense] that returns leaves the records as they are or
    removes one of them. *)
Lemma DeleteExpense_expenses float_str self in_index self' outcome :
  DeleteExpense float_str self in_index = Ok (self', outcome) ->
  expenses self' = expenses self
  \/ exists i, expenses self' = delete i (expenses self).
Proof.
  unfold DeleteExpense. set (l := expenses self).
  destruct l as [|x0 l0] eqn:El; [intros H; injection H as <- _; now left|].
  rewrite <- El. clear El.
  destruct (show_entries float_str 1 l); [|discriminate]. cbn [bind].
  destruct (int (strip in_index)) as [idx|[]]; try discriminate;
    [|intros H; injection H as <- _; now left].
  destruct (_ || _); [intros H; injection H as <- _; now left|].
  destruct (l !! Z.to_nat (idx - 1)); [|discriminate].
  intros H. injection H as <- _. right. now eexists.
Qed.

Lemma entry_step_preserves float_str self self' :
  entry_step float_str self self' ->
  Forall entered_ok (expenses self) -> Forall entered_ok (expenses self').
Proof.
  intros [s a b c d s' o H | s i s' o H] Hall.
  - rewrite AddExpenseInteractive_spec in H.
    destruct (ValidateExpenseData (strip a) (strip c)) as [[msg|]|err] eqn:E;
      [| |discriminate].
    + now injection H as <- _.
    + injection H as <- _. cbn [expenses with_expenses].
      apply Forall_app. split; [exact Hall|]. constructor; [|constructor].
      destruct (ValidateExpenseData_accepts _ _ E) as (_ & x & Ex & Hx).
      unfold entered_ok, lit. cbn [amount]. rewrite Ex.
      split; [exact Hx|now apply nonneg_of_not_lt].
  - destruct (DeleteExpense_expenses _ _ _ _ _ H) as [-> | [k ->]];
      [exact Hall|now apply Forall_delete].
Qed.

Lemma entry_steps_preserve float_str self self' :
  rtc (entry_step float_str) self self' ->
  Forall entered_ok (expenses self) -> Forall entered_ok (expenses self').
Proof.
  induction 1 as [s | s1 s2 s3 Hstep _ IH]; intros Hall; [exact Hall|].
  apply IH. now apply (entry_step_preserves float_str s1).
Qed.

Lemma validateAmount_not_negative inputs : forall v evs rest,
  Final.validateAmount inputs = Ok (Some v, evs, rest) -> flt v fzero = false.
Proof.
  induction inputs as [|line inputs IH]; intros v evs rest; simpl;
    [discriminate|].
  destruct (String.eqb _ "q"); [discriminate|].
  destruct (float_of_str (strip line)) as [x|[]]; try discriminate.
  - destruct (flt x fzero) eqn:Hx.
    + destruct (Final.validateAmount inputs) as [[[v' evs'] rest']|];
        [|discriminate].
      cbn [bind]. intros H. injection H as -> _ _. eapply IH. reflexivity.
    + intros H. now injection H as <- _ _.
  - destruct (Final.validateAmount inputs) as [[[v' evs'] rest']|];
      [|discriminate].
    cbn [bind]. intros H. injection H as -> _ _. eapply IH. reflexivity.
Qed.

(** C3, as the claim states it, fails: loading a store whose row has the
    amount [-5] puts a record with a negative amount in the ledger, in
    [expenseTracker3.py] and in [expenseTrackerFinal.py]. *)
Lemma C3_counterexample_load_negative :
  let self := LoadExpenses fs_negative tracker0 in
  rtc (step format_2f) tracker0 self
  /\ map amount (expenses self) = [lit "-5"]
  /\ map Final.amount
       (Final.loadFromCsv fs_negative {| Final.filePath := "expenses.csv" |})
     = [lit "-5"]
  /\ nonneg (lit "-5") = false.
Proof.
  split; [|split; [|split]]; try (vm_compute; reflexivity).
  apply rtc_once. right. constructor.
Qed.

(** C3, amended: in every ledger reached from an empty one by adds and
    deletes, no record has an amount below zero: [amount < 0] is false of
    each, and [amount >= 0] holds of each whose amount is a number. Nothing
    of the kind is checked of records read from stored rows (see the
    counterexample). [Final.validateAmount] likewise returns no value
    below zero. *)
Theorem C3_entered_amounts_not_negative float_str
    (self0 self : ExpenseTracker) :
  expenses self0 = [] ->
  rtc (entry_step float_str) self0 self ->
  Forall (fun e => flt (amount e) fzero = false
                   /\ (amount e <> S754_nan -> nonneg (amount e) = true))
    (expenses self)
  /\ (forall inputs v evs rest,
        Final.validateAmount inputs = Ok (Some v, evs, rest) ->
        flt v fzero = false).
Proof.
  intros H0 Hr. split; [|exact validateAmount_not_negative].
  apply (entry_steps_preserve float_str self0 self Hr).
  rewrite H0. constructor.
Qed.

Lemma C3_witness :
  let self := with_expenses tracker0 [coffee] in
  rtc (entry_step format_2f) tracker0 self
  /\ Forall (fun e => flt (amount e) fzero = false
                      /\ (amount e <> S754_nan -> nonneg (amount e) = true))
       (expenses self).
Proof.
  intros self.
  assert (Hr : rtc (entry_step format_2f) tracker0 self).
  { apply rtc_once.
    apply (step_add format_2f tracker0 "2024-01-05" "Food" "3.50" "coffee"
             self (Added coffee)).
    vm_compute. reflexivity. }
  split; [exact Hr|].
  exact (proj1 (C3_entered_amounts_not_negative format_2f tracker0 self
                  eq_refl Hr)).
Defined.

End Amounts.

(* ================================================================== *)
(** * Further properties: the date rules                               *)
(* ================================================================== *)

Section DateRules.
Import Py PyFacts Aux Tracker3.

(** *** Splitting *)

Lemma split_chars_nonempty sep l : forall cur, split_chars sep cur l <> [].
Proof.
  induction l as [|c l IH]; intros cur; simpl; [discriminate|].
  destruct (Ascii.eqb c sep); [discriminate|apply IH].
Qed.

Lemma join_chars_cons sep p ps :
  ps <> [] -> join_chars sep (p :: ps) = chars p ++ sep :: join_chars sep ps.
Proof. destruct ps; [congruence|reflexivity]. Qed.

(** Joining what [split] returns gives the text back. *)
Lemma join_split_chars sep l : forall cur,
  join_chars sep (split_chars sep cur l) = rev cur ++ l.
Proof.
  induction l as [|c l IH]; intros cur; simpl.
  - now rewrite chars_str, app_nil_r.
  - destruct (Ascii.eqb_spec c sep) as [-> | Hne].
    + rewrite join_chars_cons by apply split_chars_nonempty.
      now rewrite chars_str, IH.
    + rewrite IH. simpl. now rewrite <- app_assoc.
Qed.



(** *** [int] on a part that passed [isdigit] *)


(** [int] reads a non-empty text of decimal digits as its value. *)
Lemma int_decimal l :
  l <> [] -> all_decimal l -> int (str l) = Ok (digits_value l).
Proof.
  intros Hne Hd. unfold int. rewrite chars_str.
  assert (Hstrip : strip_by is_num_space l = l).
  { unfold strip_by. destruct l as [|c l]; [congruence|].
    unfold all_decimal in Hd. simpl in Hd. apply andb_prop in Hd as [Hc Hl].
    destruct (is_decimal_facts c Hc) as (Hsp & _).
    rewrite lstripped_fix by exact Hsp.
    destruct (exists_last (l := c :: l) ltac:(discriminate)) as (l' & z & E).
    rewrite E. apply rstrip_by_keep.
    assert (Hz : is_decimal z = true).
    { assert (Hall : forallb is_decimal (c :: l) = true)
        by (simpl; now rewrite Hc, Hl).
      rewrite E, forallb_app in Hall. apply andb_prop in Hall as [_ Hall].
      simpl in Hall. now apply andb_prop in Hall as [Hall _]. }
    now destruct (is_decimal_facts z Hz) as (? & _). }
  rewrite Hstrip.
  assert (Hsign : sign l = (false, l)).
  { destruct l as [|c l]; [congruence|].
    unfold all_decimal in Hd. simpl in Hd. apply andb_prop in Hd as [Hc _].
    destruct (is_decimal_facts c Hc) as (_ & _ & _ & Hm & Hp & _).
    simpl. now rewrite Hm, Hp. }
  rewrite Hsign.
  pose proof (digitpart_digits l [] Hne Hd I) as E.
  rewrite app_nil_r in E. now rewrite E.
Qed.

(** A text of digits in the sense of [isdigit] is read by [int] when all of
    them are decimal digits, and makes [int] raise otherwise. *)
Lemma int_isdigit p :
  isdigit p = true ->
  (all_decimal (chars p) /\ int p = Ok (digits_value (chars p)))
  \/ (~ all_decimal (chars p) /\ int p = Raise ValueError).
Proof.
  unfold isdigit. destruct (chars p) as [|c0 l0] eqn:Ep; [discriminate|].
  rewrite <- Ep. intros Hdig.
  assert (Hne : chars p <> []) by (rewrite Ep; discriminate).
  destruct (forallb is_decimal (chars p)) eqn:Hdec.
  - left. split; [exact Hdec|].
    rewrite <- (str_chars p) at 1. now apply int_decimal.
  - right. split; [unfold all_decimal; congruence|].
    destruct (int p) as [v|e] eqn:Ei; [|now rewrite (int_raises _ _ Ei)].
    exfalso. revert Ei. unfold int.
    (* no whitespace, no sign: the digits are read from the first character *)
    assert (Hsp : forall c, is_digit c = true ->
              is_num_space c = false /\ Ascii.eqb c "-"%char = false
              /\ Ascii.eqb c "+"%char = false /\ Ascii.eqb c "_"%char = false).
    { intros c. destruct c as [[] [] [] [] [] [] [] []]; intros H;
        try discriminate H; repeat split. }
    assert (Hstrip : strip_by is_num_space (chars p) = chars p).
    { unfold strip_by. rewrite Ep in *. simpl in Hdig.
      apply andb_prop in Hdig as [Hc Hl].
      rewrite lstripped_fix by (now destruct (Hsp c0 Hc)).
      destruct (exists_last (l := c0 :: l0) ltac:(discriminate)) as (l' & z & E).
      rewrite E. apply rstrip_by_keep.
      assert (Hall : forallb is_digit (c0 :: l0) = true)
        by (simpl; now rewrite Hc, Hl).
      rewrite E, forallb_app in Hall. apply andb_prop in Hall as [_ Hall].
      simpl in Hall. apply andb_prop in Hall as [Hz _].
      now destruct (Hsp z Hz). }
    rewrite Hstrip.
    assert (Hsign : sign (chars p) = (false, chars p)).
    { rewrite Ep in *. simpl in Hdig. apply andb_prop in Hdig as [Hc _].
      destruct (Hsp c0 Hc) as (_ & Hm & Hpl & _). simpl. now rewrite Hm, Hpl. }
    rewrite Hsign.
    (* the decimal prefix ends before a digit that is not decimal *)
    assert (Hsplit : exists ds c rest,
              chars p = ds ++ c :: rest /\ forallb is_decimal ds = true
              /\ is_decimal c = false /\ is_digit c = true).
    { clear - Hdig Hdec. induction (chars p) as [|c l IH]; [discriminate|].
      simpl in Hdig, Hdec. apply andb_prop in Hdig as [Hc Hl].
      destruct (is_decimal c) eqn:Hcd.
      - destruct (IH Hl Hdec) as (ds & c' & rest & -> & H1 & H2 & H3).
        exists (c :: ds), c', rest. simpl. rewrite Hcd. now repeat split.
      - exists [], c, l. now repeat split. }
    destruct Hsplit as (ds & c & rest & E & Hds & Hc & Hcdig).
    rewrite E.
    assert (Hstop : digitpart_stops (c :: rest)).
    { split; [exact Hc|]. now destruct (Hsp c Hcdig) as (_ & _ & _ & ?). }
    destruct ds as [|d ds].
    + simpl. rewrite Hc. discriminate.
    + rewrite (digitpart_digits (d :: ds) (c :: rest)) by
        (try assumption; discriminate).
      discriminate.
Qed.







(** An ASCII digit in the sense of [isdigit] is a decimal digit. *)
Lemma is_digit_ascii l :
  Forall (fun c => (code c < 128)%N) l -> forallb is_digit l = true ->
  all_decimal l.
Proof.
  unfold all_decimal. induction 1 as [|c l Hc _ IH]; simpl; [reflexivity|].
  intros H. apply andb_prop in H as [Hd Hl]. rewrite (IH Hl), andb_true_r.
  revert Hc Hd. destruct c as [[] [] [] [] [] [] [] []]; intros Hc Hd;
    try reflexivity; try discriminate Hd; now vm_compute in Hc.
Qed.

(** The characters of a part are characters of the text. *)
Lemma join_chars_incl sep p parts :
  p ∈ parts -> forall c, c ∈ chars p -> c ∈ join_chars sep parts.
Proof.
  induction parts as [|q parts IH]; intros Hp c Hc; [inversion Hp|].
  destruct parts as [|r parts].
  - apply list_elem_of_singleton in Hp. now subst.
  - rewrite join_chars_cons by discriminate.
    apply elem_of_cons in Hp as [-> | Hp].
    + apply elem_of_app. now left.
    + apply elem_of_app. right. right. now apply IH.
Qed.

(** On a date text without characters beyond ASCII, [_ValidateDateStrict]
    raises nothing, and so neither does [ValidateExpenseData]: the caller
    always gets a verdict. *)
Theorem validate_returns_on_ascii (date_str amount_str : string) :
  ascii_only date_str ->
  exists verdict, ValidateExpenseData date_str amount_str = Ok verdict.
Proof.
  intros Hascii.
  assert (Hd : exists v, _ValidateDateStrict date_str = Ok v).
  { unfold _ValidateDateStrict.
    destruct (negb (truthy date_str)); [eauto|].
    pose proof (join_split_chars "-"%char (chars date_str) []) as Hjoin.
    fold (split "-"%char date_str) in Hjoin. cbn [rev app] in Hjoin.
    destruct (_ || _) eqn:Econd; [eauto|].
    apply orb_false_iff in Econd as [_ Hdig].
    assert (Hpart : forall p, p ∈ split "-"%char date_str ->
                      exists v, int p = Ok v).
    { intros p Hp.
      assert (Hpd : isdigit p = true).
      { rewrite <- negb_false_iff.
        destruct (negb (isdigit p)) eqn:E; [|reflexivity].
        rewrite <- Hdig. symmetry. apply existsb_exists. exists p.
        split; [now apply list_elem_of_In|exact E]. }
      destruct (int_isdigit p Hpd) as [[_ ->] | [Hn _]]; [eauto|].
      exfalso. apply Hn. apply is_digit_ascii.
      - apply Forall_forall. intros c Hc.
        unfold ascii_only in Hascii. rewrite Forall_forall in Hascii.
        apply Hascii. rewrite <- Hjoin.
        now apply (join_chars_incl _ p).
      - unfold isdigit in Hpd. now destruct (chars p). }
    destruct (split "-"%char date_str) as [|a [|b [|c [|x parts]]]]; eauto.
    destruct (negb _); [eauto|].
    destruct (Hpart a) as [va ->]; [left|].
    destruct (Hpart b) as [vb ->]; [right; left|].
    destruct (Hpart c) as [vc ->]; [right; right; left|].
    cbn [bind]. destruct (_ && _); [eauto|]. destruct (datetime_ok _ _ _); eauto. }
  destruct Hd as [v Hv]. unfold ValidateExpenseData. rewrite Hv. cbn [bind].
  destruct (truthy _); [eauto|]. destruct (negb _); [eauto|].
  destruct (float_of_str amount_str) as [x|e] eqn:E.
  - destruct (flt x fzero); eauto.
  - rewrite (float_of_str_raises _ _ E). eauto.
Qed.

Lemma validate_returns_witness :
  ascii_only "2024-13-01"
  /\ exists verdict, ValidateExpenseData "2024-13-01" "abc" = Ok verdict.
Proof.
  assert (H : ascii_only "2024-13-01").
  { unfold ascii_only. simpl. repeat constructor. }
  split; [exact H|]. exact (validate_returns_on_ascii "2024-13-01" "abc" H).
Defined.

End DateRules.

(* ================================================================== *)
(** * Further properties: reading and writing the store                *)
(* ================================================================== *)

Section Store.
Import Py PyFacts Aux.

(** *** Rows that read, rows that are skipped, rows that stop the loading *)

(** On a complete row [FromDict] raises nothing but [ValueError]. *)
Lemma FromDict_complete row e :
  complete_row row -> Tracker3.FromDict row = Raise e -> e = ValueError.
Proof.
  intros ([d Hd] & [c Hc] & [t Ht]). unfold Tracker3.FromDict.
  rewrite Hd, Hc, Ht. cbn [Tracker3.strip_val bind].
  destruct (float_of_str _) as [x|e'] eqn:E; [discriminate|].
  cbn [bind]. intros H. injection H as <-. exact (float_of_str_raises _ _ E).
Qed.

(** On a row that lacks a text field [FromDict] raises [AttributeError]. *)
Lemma FromDict_short row :
  ~ complete_row row -> Tracker3.FromDict row = Raise AttributeError.
Proof.
  intros H. unfold Tracker3.FromDict, Tracker3.strip_val.
  destruct (get row "date" "") as [d|] eqn:Hd; [|reflexivity].
  destruct (get row "category" "") as [c|] eqn:Hc; [|reflexivity].
  destruct (get row "description" "") as [t|] eqn:Ht; [|reflexivity].
  exfalso. apply H. unfold complete_row. rewrite Hd, Hc, Ht. eauto.
Qed.

Lemma load_rows_complete rows : forall acc,
  Forall complete_row rows ->
  Tracker3.load_rows rows acc = acc ++ omap read_row rows.
Proof.
  induction rows as [|row rows IH]; intros acc Hall; simpl.
  - now rewrite app_nil_r.
  - apply Forall_cons in Hall as [Hrow Hall]. unfold read_row.
    destruct (Tracker3.FromDict row) as [e|err] eqn:E.
    + rewrite IH by assumption. now rewrite <- app_assoc.
    + rewrite (FromDict_complete _ _ Hrow E). now apply IH.
Qed.

Lemma load_rows_short rows1 : forall row rows2 acc,
  Forall complete_row rows1 -> ~ complete_row row ->
  Tracker3.load_rows (rows1 ++ row :: rows2) acc
  = Tracker3.load_rows rows1 acc.
Proof.
  induction rows1 as [|r rows1 IH]; intros row rows2 acc Hall Hshort; simpl.
  - now rewrite (FromDict_short _ Hshort).
  - apply Forall_cons in Hall as [Hr Hall].
    destruct (Tracker3.FromDict r) as [e|err] eqn:E.
    + now apply IH.
    + rewrite (FromDict_complete _ _ Hr E). now apply IH.
Qed.

(** [LoadExpensesFromCsv] of [expenseTracker3.py], on a file whose rows all
    have their text fields: the records of the rows that read, in the order
    of the file; a row whose amount is no number is left out and the rows
    after it are still read. *)
Theorem load_skips_unreadable_rows (fs : filesystem)
    (self : Tracker3.ExpenseStorage) (path : option string) (f : file) :
  fs !! opt_or path (Tracker3.csv_path self) = Some f ->
  readable f = true ->
  Forall complete_row (csv_rows f) ->
  Tracker3.LoadExpensesFromCsv fs self path = omap read_row (csv_rows f).
Proof.
  intros Hf Hr Hall. unfold Tracker3.LoadExpensesFromCsv.
  rewrite Hf, Hr. now rewrite load_rows_complete.
Qed.

Lemma load_skips_witness :
  Tracker3.LoadExpensesFromCsv fs_negative
    {| Tracker3.csv_path := "expenses.csv" |} None
  = omap read_row [row_negative].
Proof.
  apply (load_skips_unreadable_rows fs_negative _ None
           {| readable := true; csv_rows := [row_negative];
              json_doc := Raise ValueError |}).
  - vm_compute. reflexivity.
  - reflexivity.
  - repeat constructor; vm_compute; eauto.
Defined.

(** [LoadExpensesFromCsv] of [expenseTracker3.py] stops at the first row
    that is too short to have one of the text fields: the rows before it
    are loaded, the rows after it are not read. *)
Theorem load_stops_at_short_row (fs : filesystem)
    (self : Tracker3.ExpenseStorage) (path : option string) (f : file)
    (rows1 rows2 : list Row) (row : Row) :
  fs !! opt_or path (Tracker3.csv_path self) = Some f ->
  readable f = true ->
  csv_rows f = rows1 ++ row :: rows2 ->
  Forall complete_row rows1 ->
  ~ complete_row row ->
  Tracker3.LoadExpensesFromCsv fs self path = omap read_row rows1.
Proof.
  intros Hf Hr Hrows Hall Hshort. unfold Tracker3.LoadExpensesFromCsv.
  rewrite Hf, Hr, Hrows, load_rows_short by assumption.
  now rewrite load_rows_complete.
Qed.

Lemma load_stops_witness :
  Tracker3.LoadExpensesFromCsv fs_short
    {| Tracker3.csv_path := "expenses.csv" |} None
  = omap read_row [Tracker3.ToDict coffee].
Proof.
  apply (load_stops_at_short_row fs_short _ None
           {| readable := true;
              csv_rows := [Tracker3.ToDict coffee; row_short;
                           Tracker3.ToDict lunch];
              json_doc := Raise ValueError |}
           [Tracker3.ToDict coffee] [Tracker3.ToDict lunch] row_short).
  - vm_compute. reflexivity.
  - reflexivity.
  - reflexivity.
  - repeat constructor; vm_compute; eauto.
  - intros (_ & _ & [t Ht]). vm_compute in Ht. discriminate Ht.
Defined.



(** *** The amount of a row *)



(** In [expenseTrackerFinal.py] a row with no amount column reads as a
    record of amount [0.0], while a row whose amount is empty, or absent
    because the line is short, makes [fromDict] raise, and [loadFromCsv]
    leaves it out. *)
Theorem final_fromDict_amount (d : Row) :
  d <> ∅ ->
  (d !! "amount" = None ->
   exists e, Final.fromDict d = Ok (Some e) /\ Final.amount e = fzero)
  /\ (d !! "amount" = Some (Some "") ->
      Final.fromDict d = Raise ValueError /\ final_read_row d = None)
  /\ (d !! "amount" = Some None ->
      Final.fromDict d = Raise TypeError /\ final_read_row d = None).
Proof.
  intros Hne. unfold final_read_row, Final.fromDict.
  destruct (decide (d = ∅)) as [E|_]; [contradiction|].
  unfold Final.amount_of_row.
  split; [|split]; intros ->; cbn [bind]; eauto.
Qed.

Lemma final_fromDict_amount_witness :
  Final.fromDict (<["amount" := Some ""]> row_negative) = Raise ValueError.
Proof.
  refine (proj1 (proj1 (proj2 (final_fromDict_amount
                                 (<["amount" := Some ""]> row_negative) _)) _)).
  - apply insert_non_empty.
  - vm_compute. reflexivity.
Defined.

(** *** Saving, then loading *)








End Store.

(* ================================================================== *)
(** * Further properties: the budget                                   *)
(* ================================================================== *)

Section Budget.
Import Py PyFacts Aux.

(** A budget saved is the budget a later start loads, whatever budget the
    manager held when loading; in both variants. *)
Theorem budget_save_then_load (fs : filesystem) (acc : access)
    (saved loading : Tracker3.BudgetManager)
    (saved' loading' : Final.BudgetManager) :
  can_write acc = true -> can_read acc = true ->
  Tracker3.budget_json_path loading = Tracker3.budget_json_path saved ->
  Final.budgetFile loading' = Final.budgetFile saved' ->
  Tracker3.monthly_budget
    (Tracker3.LoadBudgetOnStart (Tracker3.SaveBudget fs acc saved) loading)
  = Tracker3.monthly_budget saved
  /\ Final.monthlyBudget
       (Final.loadBudget (Final.saveBudget fs acc saved') loading')
     = Final.monthlyBudget saved'.
Proof.
  intros Hw Hr Hp Hp'.
  unfold Tracker3.SaveBudget, Tracker3.LoadBudgetOnStart,
    Final.saveBudget, Final.loadBudget.
  rewrite Hw, Hp, Hp', !lookup_insert_eq.
  cbn [budget_file readable json_doc]. rewrite Hr.
  rewrite !lookup_singleton_eq. split; reflexivity.
Qed.

Lemma budget_save_then_load_witness :
  Tracker3.monthly_budget
    (Tracker3.LoadBudgetOnStart
       (Tracker3.SaveBudget ∅ granted
          {| Tracker3.budget_json_path := "budget.json";
             Tracker3.monthly_budget := lit "100.00" |})
       (Tracker3.BudgetManager_init "budget.json"))
  = lit "100.00".
Proof.
  exact (proj1 (budget_save_then_load ∅ granted
                  {| Tracker3.budget_json_path := "budget.json";
                     Tracker3.monthly_budget := lit "100.00" |}
                  (Tracker3.BudgetManager_init "budget.json")
                  {| Final.budgetFile := "budget.json";
                     Final.monthlyBudget := lit "100.00" |}
                  (Final.BudgetManager_init "budget.json")
                  eq_refl eq_refl eq_refl eq_refl)).
Defined.

(** Loading the budget never fails and never resets a budget in memory: on
    a file that cannot be read, that holds no JSON, or whose document is no
    object, the manager is left as it is. *)
Theorem budget_load_keeps_on_bad_file (fs : filesystem) (f : file)
    (self : Tracker3.BudgetManager) (self' : Final.BudgetManager) :
  fs !! Tracker3.budget_json_path self = Some f ->
  fs !! Final.budgetFile self' = Some f ->
  readable f = false \/ (exists e, json_doc f = Raise e)
  \/ json_doc f = Ok JOther ->
  Tracker3.LoadBudgetOnStart fs self = self
  /\ Final.loadBudget fs self' = self'.
Proof.
  intros Hf Hf' Hbad.
  unfold Tracker3.LoadBudgetOnStart, Final.loadBudget. rewrite Hf, Hf'.
  destruct Hbad as [-> | [[e ->] | ->]]; [now split| |];
    destruct (readable f); now split.
Qed.

Lemma budget_load_keeps_witness :
  Tracker3.LoadBudgetOnStart fs_negative
    {| Tracker3.budget_json_path := "expenses.csv";
       Tracker3.monthly_budget := lit "100.00" |}
  = {| Tracker3.budget_json_path := "expenses.csv";
       Tracker3.monthly_budget := lit "100.00" |}.
Proof.
  refine (proj1 (budget_load_keeps_on_bad_file fs_negative
                   {| readable := true; csv_rows := [row_negative];
                      json_doc := Raise ValueError |}
                   _ {| Final.budgetFile := "expenses.csv";
                        Final.monthlyBudget := fzero |} _ _ _)).
  - vm_compute. reflexivity.
  - vm_compute. reflexivity.
  - right. left. now exists ValueError.
Defined.



(** Spending exactly the budget is not over budget: with a finite budget
    above zero and a total equal to it, the report is [0.00] left. *)
Theorem track_total_equal_to_budget (m : positive) (e : Z) (path : string) :
  let x := S754_finite false m e in
  Tracker3.TrackBudget
    {| Tracker3.budget_json_path := path; Tracker3.monthly_budget := x |} x
  = Tracker3.WithinBudget (format_2f x) (format_2f x) "0.00"
  /\ Final.track {| Final.budgetFile := path; Final.monthlyBudget := x |} x
     = Final.StillLeft (format_2f x) (format_2f x) "0.00".
Proof.
  intros x.
  assert (E : fsub x x = S754_zero false).
  { unfold x, fsub, SFsub. cbn [cond_Zopp]. now rewrite Z.sub_diag. }
  unfold Tracker3.TrackBudget, Final.track.
  cbn [Tracker3.monthly_budget Final.monthlyBudget]. rewrite E.
  split; reflexivity.
Qed.

(** When [SetMonthlyBudget] returns, the budget it has set is the value of
    the first line read that is a number not below zero: the lines before
    it were turned down, one warning each, the lines after it are left
    unread; the budget is not below zero, and it is what was saved. *)
Theorem SetMonthlyBudget_sets_first_valid (fs : filesystem) (acc : access)
    (self : Tracker3.BudgetManager) (inputs : list string)
    fs' self' evs rest :
  Tracker3.SetMonthlyBudget fs acc self inputs = Ok (fs', self', evs, rest) ->
  exists rejected raw,
    inputs = rejected ++ raw :: rest
    /\ length rejected = length evs
    /\ Forall budget_line_rejected rejected
    /\ float_of_str raw = Ok (Tracker3.monthly_budget self')
    /\ flt (Tracker3.monthly_budget self') fzero = false
    /\ Tracker3.budget_json_path self' = Tracker3.budget_json_path self
    /\ fs' = Tracker3.SaveBudget fs acc self'.
Proof.
  revert fs' self' evs rest.
  induction inputs as [|raw inputs IH]; intros fs' self' evs rest;
    cbn [Tracker3.SetMonthlyBudget]; [discriminate|].
  assert (Hrec : forall ev,
            budget_line_rejected raw ->
            bind (Tracker3.SetMonthlyBudget fs acc self inputs)
              (fun r => let '(fs0, self0, evs0, rest0) := r in
                        Ok (fs0, self0, ev :: evs0, rest0))
            = Ok (fs', self', evs, rest) ->
            exists rejected raw0,
              raw :: inputs = rejected ++ raw0 :: rest
              /\ length rejected = length evs
              /\ Forall budget_line_rejected rejected
              /\ float_of_str raw0 = Ok (Tracker3.monthly_budget self')
              /\ flt (Tracker3.monthly_budget self') fzero = false
              /\ Tracker3.budget_json_path self'
                 = Tracker3.budget_json_path self
              /\ fs' = Tracker3.SaveBudget fs acc self').
  { intros ev Hrej H.
    destruct (Tracker3.SetMonthlyBudget fs acc self inputs)
      as [[[[fs0 self0] evs0] rest0]|] eqn:E; [|discriminate].
    cbn [bind] in H. injection H as <- <- <- <-.
    destruct (IH _ _ _ _ eq_refl) as (rej & raw0 & -> & Hl & Hall & Hrest).
    exists (raw :: rej), raw0. split; [reflexivity|].
    split; [simpl; now rewrite Hl|]. split; [now constructor|exact Hrest]. }
  destruct (float_of_str raw) as [value|err] eqn:Ef.
  - destruct (flt value fzero) eqn:Hv.
    + apply Hrec. unfold budget_line_rejected. now rewrite Ef.
    + intros H. injection H as <- <- <- <-.
      exists [], raw. now repeat split.
  - rewrite (float_of_str_raises _ _ Ef).
    apply Hrec. unfold budget_line_rejected. now rewrite Ef.
Qed.

Lemma SetMonthlyBudget_witness :
  exists rejected raw,
    ["abc"; "-1"; "250.50"; "9"] = rejected ++ raw :: ["9"]
    /\ length rejected = 2%nat
    /\ float_of_str raw = Ok (lit "250.50").
Proof.
  destruct (SetMonthlyBudget_sets_first_valid ∅ granted
              (Tracker3.BudgetManager_init "budget.json")
              ["abc"; "-1"; "250.50"; "9"]
              (Tracker3.SaveBudget ∅ granted
                 {| Tracker3.budget_json_path := "budget.json";
                    Tracker3.monthly_budget := lit "250.50" |})
              {| Tracker3.budget_json_path := "budget.json";
                 Tracker3.monthly_budget := lit "250.50" |}
              [Tracker3.BudgetNotNumber; Tracker3.BudgetNegative] ["9"]
              eq_refl)
    as (rejected & raw & H1 & H2 & _ & H4 & _).
  exists rejected, raw. now repeat split.
Defined.

(** The same of [setBudget] in [expenseTrackerFinal.py]. *)
Theorem setBudget_sets_first_valid (fs : filesystem) (acc : access)
    (self : Final.BudgetManager) (inputs : list string)
    fs' self' evs rest :
  Final.setBudget fs acc self inputs = Ok (fs', self', evs, rest) ->
  exists rejected val,
    inputs = rejected ++ val :: rest
    /\ length rejected = length evs
    /\ Forall budget_line_rejected rejected
    /\ float_of_str val = Ok (Final.monthlyBudget self')
    /\ flt (Final.monthlyBudget self') fzero = false
    /\ Final.budgetFile self' = Final.budgetFile self
    /\ fs' = Final.saveBudget fs acc self'.
Proof.
  revert fs' self' evs rest.
  induction inputs as [|val inputs IH]; intros fs' self' evs rest;
    cbn [Final.setBudget]; [discriminate|].
  assert (Hrec : forall ev,
            budget_line_rejected val ->
            bind (Final.setBudget fs acc self inputs)
              (fun r => let '(fs0, self0, evs0, rest0) := r in
                        Ok (fs0, self0, ev :: evs0, rest0))
            = Ok (fs', self', evs, rest) ->
            exists rejected val0,
              val :: inputs = rejected ++ val0 :: rest
              /\ length rejected = length evs
              /\ Forall budget_line_rejected rejected
              /\ float_of_str val0 = Ok (Final.monthlyBudget self')
              /\ flt (Final.monthlyBudget self') fzero = false
              /\ Final.budgetFile self' = Final.budgetFile self
              /\ fs' = Final.saveBudget fs acc self').
  { intros ev Hrej H.
    destruct (Final.setBudget fs acc self inputs)
      as [[[[fs0 self0] evs0] rest0]|] eqn:E; [|discriminate].
    cbn [bind] in H. injection H as <- <- <- <-.
    destruct (IH _ _ _ _ eq_refl) as (rej & val0 & -> & Hl & Hall & Hrest).
    exists (val :: rej), val0. split; [reflexivity|].
    split; [simpl; now rewrite Hl|]. split; [now constructor|exact Hrest]. }
  destruct (float_of_str val) as [amt|err] eqn:Ef.
  - destruct (flt amt fzero) eqn:Hv.
    + apply Hrec. unfold budget_line_rejected. now rewrite Ef.
    + intros H. injection H as <- <- <- <-.
      exists [], val. now repeat split.
  - rewrite (float_of_str_raises _ _ Ef).
    apply Hrec. unfold budget_line_rejected. now rewrite Ef.
Qed.

Lemma setBudget_witness :
  exists rejected val,
    ["abc"; "-1"; "250.50"; "9"] = rejected ++ val :: ["9"]
    /\ length rejected = 2%nat
    /\ float_of_str val = Ok (lit "250.50").
Proof.
  destruct (setBudget_sets_first_valid ∅ granted
              (Final.BudgetManager_init "budget.json")
              ["abc"; "-1"; "250.50"; "9"]
              (Final.saveBudget ∅ granted
                 {| Final.budgetFile := "budget.json";
                    Final.monthlyBudget := lit "250.50" |})
              {| Final.budgetFile := "budget.json";
                 Final.monthlyBudget := lit "250.50" |}
              [Final.BudgetNotNumber; Final.BudgetNegative] ["9"]
              eq_refl)
    as (rejected & val & H1 & H2 & _ & H4 & _).
  exists rejected, val. now repeat split.
Defined.

End Budget.

(* ================================================================== *)
(** * Further properties: importing twice, keys                        *)
(* ================================================================== *)

Section ImportAgain.
Import Py PyFacts Aux Tracker3.

Local Abbreviation has_key e l :=
  (existsb (fun x => key_eqb (ToKey e) (ToKey x)) l) (only parsing).

Lemma ImportExpensesFromCsv_merge (fs : filesystem) self in_path :
  let imported :=
    LoadExpensesFromCsv fs (storage self) (Some (strip in_path)) in
  let merged := import_merge imported (expenses self) in
  ImportExpensesFromCsv fs self in_path
  = if negb (truthy (strip in_path)) then (self, NoPath)
    else match imported with
         | [] => (self, NothingFound)
         | _ => (with_expenses self merged,
                 Imported (Z.of_nat (length imported))
                   (Z.of_nat (length merged)
                    - Z.of_nat (length (expenses self)))
                   (Z.of_nat (length merged)))
         end.
Proof.
  intros imported merged. unfold ImportExpensesFromCsv.
  destruct (negb (truthy (strip in_path))); [reflexivity|].
  fold imported. destruct imported as [|e0 imp] eqn:Ei; [reflexivity|].
  destruct (merge_loop_refines (e0 :: imp) (expenses self)
              (map ToKey (expenses self)) 0 (keys_of_init _)) as [keys' E].
  rewrite E. subst merged. do 3 f_equal.
Qed.

Lemma has_key_merged incoming : forall current e,
  has_key e current = true ->
  has_key e (import_merge incoming current) = true.
Proof.
  intros current e H.
  destruct (import_merge_appends incoming current) as (app & -> & _).
  now rewrite existsb_app, H.
Qed.

(** After a merge every incoming record whose amount is a number has its
    key in the collection. *)
Lemma import_merge_covers incoming : forall current e,
  e ∈ incoming -> is_number e ->
  has_key e (import_merge incoming current) = true.
Proof.
  induction incoming as [|x incoming IH]; intros current e He Hn;
    [inversion He|].
  cbn [import_merge]. apply elem_of_cons in He as [-> | He].
  - destruct (has_key x current) eqn:E.
    + now apply has_key_merged.
    + apply has_key_merged. rewrite existsb_app. cbn [existsb].
      assert (R : key_eqb (ToKey x) (ToKey x) = true).
      { unfold key_eqb, ToKey.
        now rewrite !String.eqb_refl, feq_refl by exact Hn. }
      rewrite R. now rewrite orb_true_r.
  - destruct (has_key x current); now apply IH.
Qed.

Lemma import_merge_nothing_new incoming : forall current,
  (forall e, e ∈ incoming -> has_key e current = true) ->
  import_merge incoming current = current.
Proof.
  induction incoming as [|x incoming IH]; intros current H; [reflexivity|].
  cbn [import_merge]. rewrite (H x) by left.
  apply IH. intros e He. apply H. now right.
Qed.

(** Importing the same file a second time adds nothing, when the amounts of
    its records are numbers: the ledger after the second import is the
    ledger after the first, and the second reports 0 added. *)
Theorem import_twice_adds_nothing (fs : filesystem) (self : ExpenseTracker)
    (in_path : string) :
  let imported :=
    LoadExpensesFromCsv fs (storage self) (Some (strip in_path)) in
  let once := fst (ImportExpensesFromCsv fs self in_path) in
  Forall is_number imported ->
  ImportExpensesFromCsv fs once in_path
  = (once,
     if negb (truthy (strip in_path)) then NoPath
     else match imported with
          | [] => NothingFound
          | _ => Imported (Z.of_nat (length imported)) 0
                   (Z.of_nat (length (expenses once)))
          end).
Proof.
  intros imported once Hnum. subst once.
  rewrite (ImportExpensesFromCsv_merge fs self in_path). fold imported.
  destruct (negb (truthy (strip in_path))) eqn:Ep.
  - cbn [fst]. rewrite (ImportExpensesFromCsv_merge fs self in_path).
    now rewrite Ep.
  - destruct imported as [|e0 imp] eqn:Ei.
    + cbn [fst]. rewrite (ImportExpensesFromCsv_merge fs self in_path).
      fold imported. now rewrite Ep, Ei.
    + cbn [fst]. rewrite ImportExpensesFromCsv_merge.
      cbn [storage with_expenses expenses]. fold imported.
      rewrite Ep, Ei.
      rewrite (import_merge_nothing_new (e0 :: imp)
                 (import_merge (e0 :: imp) (expenses self))).
      * rewrite Z.sub_diag. reflexivity.
      * intros e He. apply import_merge_covers; [exact He|].
        rewrite Forall_forall in Hnum. now apply Hnum.
Qed.

Lemma import_twice_witness :
  let once := fst (ImportExpensesFromCsv fs_import
                     (with_expenses tracker0 [coffee]) "old.csv") in
  ImportExpensesFromCsv fs_import once "old.csv"
  = (once, Imported 2 0 2).
Proof.
  intros once.
  assert (Hn : Forall is_number
                 (LoadExpensesFromCsv fs_import
                    (storage (with_expenses tracker0 [coffee]))
                    (Some (strip "old.csv")))).
  { vm_compute. repeat constructor; discriminate. }
  exact (import_twice_adds_nothing fs_import
           (with_expenses tracker0 [coffee]) "old.csv" Hn).
Defined.

(** *** Keys stay distinct *)

Lemma feq_sym x y : feq x y = feq y x.
Proof.
  unfold feq, SFeqb.
  destruct x as [sx | sx | | sx mx ex], y as [sy | sy | | sy my ey];
    try reflexivity; cbn [SFcompare];
    try (destruct sx, sy; reflexivity).
  assert (G : Pos.compare_cont Eq my mx = CompOpp (Pos.compare_cont Eq mx my)).
  { now rewrite (Pos.compare_cont_antisym mx my Eq). }
  destruct sx, sy; try reflexivity;
    rewrite (Z.compare_antisym ex ey), G;
    destruct (ex ?= ey); cbn [CompOpp]; try reflexivity;
    destruct (Pos.compare_cont Eq mx my); reflexivity.
Qed.

Lemma key_eqb_sym a b : key_eqb a b = key_eqb b a.
Proof.
  destruct a as [[[d1 c1] a1] s1], b as [[[d2 c2] a2] s2]. unfold key_eqb.
  now rewrite (String.eqb_sym d1 d2), (String.eqb_sym c1 c2),
    (String.eqb_sym s1 s2), (feq_sym a1 a2).
Qed.

Lemma distinct_keys_snoc l e :
  distinct_keys l -> has_key e l = false -> distinct_keys (l ++ [e]).
Proof.
  induction l as [|x l IH]; cbn [distinct_keys app existsb];
    intros Hd He; [now split|].
  destruct Hd as [Hx Hd]. apply orb_false_iff in He as [Hex He].
  split; [|now apply IH].
  rewrite existsb_app, Hx. cbn [existsb orb].
  now rewrite key_eqb_sym, Hex.
Qed.

Lemma import_merge_distinct incoming : forall current,
  distinct_keys current -> distinct_keys (import_merge incoming current).
Proof.
  induction incoming as [|e incoming IH]; intros current Hd; [exact Hd|].
  cbn [import_merge]. destruct (has_key e current) eqn:E.
  - now apply IH.
  - apply IH. now apply distinct_keys_snoc.
Qed.

(** An import never creates a duplicate: if no two records of the ledger
    have equal keys before it, none have after it. *)
Theorem import_keeps_keys_distinct (fs : filesystem) (self : ExpenseTracker)
    (in_path : string) :
  distinct_keys (expenses self) ->
  distinct_keys (expenses (fst (ImportExpensesFromCsv fs self in_path))).
Proof.
  intros Hd. rewrite ImportExpensesFromCsv_merge.
  destruct (negb _); [exact Hd|].
  destruct (LoadExpensesFromCsv _ _ _) as [|e0 imp] eqn:Ei; [exact Hd|].
  cbn [fst expenses with_expenses]. now apply import_merge_distinct.
Qed.

Lemma import_keeps_keys_distinct_witness :
  distinct_keys
    (expenses (fst (ImportExpensesFromCsv fs_import
                      (with_expenses tracker0 [coffee]) "old.csv"))).
Proof.
  apply import_keeps_keys_distinct. simpl. now split.
Defined.

End ImportAgain.

(* ================================================================== *)
(** * Further properties: adding, listing, deleting, reporting         *)
(* ================================================================== *)

Section LedgerOperations.
Import Py PyFacts Aux Tracker3.

(** [int(str(n).strip())] is [n], for [n] not below zero. *)
Lemma int_str_of_int n : 0 <= n -> int (strip (str_of_int n)) = Ok n.
Proof.
  intros Hn. unfold str_of_int.
  replace (n <? 0) with false by lia.
  destruct (digits_spec n Hn) as (Hne & Hd & Hv).
  assert (Hs : strip (str (digits n)) = str (digits n)).
  { unfold strip. rewrite chars_str. f_equal. unfold strip_by.
    destruct (digits n) as [|c l] eqn:E; [congruence|].
    simpl in Hd. apply andb_prop in Hd as [Hc Hl].
    destruct (is_decimal_facts c Hc) as (_ & Hsp & _).
    rewrite lstripped_fix by exact Hsp.
    destruct (exists_last (l := c :: l) ltac:(discriminate)) as (l' & z & E').
    rewrite E'. apply rstrip_by_keep.
    assert (Hall : forallb is_decimal (c :: l) = true)
      by (simpl; now rewrite Hc, Hl).
    rewrite E', forallb_app in Hall. apply andb_prop in Hall as [_ Hall].
    simpl in Hall. apply andb_prop in Hall as [Hz _].
    now destruct (is_decimal_facts z Hz) as (_ & ? & _). }
  rewrite Hs, int_decimal by assumption. now rewrite Hv.
Qed.

(** A date in error is what [ValidateExpenseData] reports, whatever the
    amount text: the amount is looked at only once the date has passed. *)
Theorem date_error_reported_first (date_str amount_str msg : string) :
  _ValidateDateStrict date_str = Ok (Some msg) ->
  ValidateExpenseData date_str amount_str = Ok (Some msg).
Proof.
  intros H. apply ValidateExpenseData_date_error; [exact H|].
  exact (_ValidateDateStrict_msg _ _ H).
Qed.

Lemma date_error_reported_first_witness :
  ValidateExpenseData "2023-02-30" "-5" = Ok (Some msg_invalid_date).
Proof.
  exact (date_error_reported_first "2023-02-30" "-5" msg_invalid_date eq_refl).
Defined.

Section WithDisplay.
Variable float_str : float -> string.

(** Deleting the record just added restores the ledger: after an add that
    succeeds, deleting the last display index removes the added record and
    leaves the records that were there before, in their order. *)
Theorem add_then_delete_last self in_date in_category in_amount
    in_description self' e lines :
  AddExpenseInteractive self in_date in_category in_amount in_description
  = Ok (self', Added e) ->
  show_entries float_str 1 (expenses self') = Ok lines ->
  DeleteExpense float_str self'
    (str_of_int (Z.of_nat (length (expenses self'))))
  = Ok (with_expenses self' (expenses self), Deleted e)
  /\ storage self' = storage self
  /\ budget_manager self' = budget_manager self.
Proof.
  intros Hadd Hshow. rewrite AddExpenseInteractive_spec in Hadd.
  destruct (ValidateExpenseData _ _) as [[msg|]|err]; try discriminate.
  injection Hadd as <- <-. split; [|now split].
  rewrite (DeleteExpense_listed float_str _ _ lines Hshow).
  cbn [expenses with_expenses] in *.
  set (e := {| date := strip in_date; category := Some (strip in_category);
               amount := lit (strip in_amount);
               description := Some (strip in_description) |}) in *.
  set (l := expenses self).
  rewrite int_str_of_int by lia.
  destruct (l ++ [e]) as [|x0 l0] eqn:El; [now destruct l|]. rewrite <- El.
  assert (Hlen : length (l ++ [e]) = S (length l))
    by (rewrite length_app; cbn [length]; lia).
  rewrite Hlen.
  assert (H1 : (Z.of_nat (S (length l)) <? 1) = false)
    by (apply Z.ltb_ge; lia).
  assert (H2 : (Z.of_nat (S (length l)) >? Z.of_nat (S (length l))) = false)
    by (rewrite Z.gtb_ltb; apply Z.ltb_irrefl).
  rewrite H1, H2. cbn [orb].
  replace (Z.to_nat (Z.of_nat (S (length l)) - 1)) with (length l) by lia.
  rewrite list_lookup_middle by reflexivity.
  rewrite delete_middle, app_nil_r. reflexivity.
Qed.

(** A listing that returns has one line for each record, in order and
    numbered from 1 on, and lists a record whose stored date is in error as
    skipped, with the reason of the date. *)
Theorem ViewExpenses_lines self lines :
  ViewExpenses float_str self = Ok lines ->
  length lines = length (expenses self)
  /\ (forall (i : nat) line, lines !! i = Some line ->
        line_idx line = Z.of_nat i + 1)
  /\ (forall (i : nat) exp msg,
        expenses self !! i = Some exp ->
        _ValidateDateStrict (date exp) = Ok (Some msg) ->
        lines !! i = Some (Skipping (Z.of_nat i + 1) msg)).
Proof.
  unfold ViewExpenses.
  assert (G : forall l idx lines,
            show_entries float_str idx l = Ok lines ->
            length lines = length l
            /\ (forall (i : nat) line, lines !! i = Some line ->
                  line_idx line = Z.of_nat i + idx)
            /\ (forall (i : nat) exp msg,
                  l !! i = Some exp ->
                  _ValidateDateStrict (date exp) = Ok (Some msg) ->
                  lines !! i = Some (Skipping (Z.of_nat i + idx) msg))).
  { induction l as [|x l IH]; intros idx ls; cbn [show_entries].
    - intros H. injection H as <-. repeat split; intros i ? *; now destruct i.
    - destruct (ValidateExpenseData (date x) (float_str (amount x)))
        as [err|] eqn:Ev; [|discriminate]. cbn [bind].
      destruct (show_entries float_str (idx + 1) l) as [rest|] eqn:Er;
        [|discriminate]. cbn [bind].
      intros H. injection H as <-.
      destruct (IH _ _ Er) as (H1 & H2 & H3). split; [simpl; now rewrite H1|].
      split.
      + intros [|i] line Hi.
        * injection Hi as <-. destruct (truthy _); simpl; lia.
        * rewrite (H2 i line Hi). lia.
      + intros [|i] exp msg Hi Hd.
        * injection Hi as ->.
          rewrite (date_error_reported_first _ _ _ Hd) in Ev.
          injection Ev as <-. cbn [lookup list_lookup].
          change (default "" (Some msg)) with msg.
          now rewrite (_ValidateDateStrict_msg _ _ Hd).
        * cbn [lookup list_lookup].
          replace (Z.of_nat (S i) + idx) with (Z.of_nat i + (idx + 1)) by lia.
          exact (H3 i exp msg Hi Hd). }
  intros H. destruct (G _ _ _ H) as (H1 & H2 & H3).
  split; [exact H1|]. split; [exact H2|exact H3].
Qed.

End WithDisplay.

Lemma add_then_delete_last_witness :
  DeleteExpense format_2f (with_expenses tracker0 [coffee]) "1"
  = Ok (with_expenses (with_expenses tracker0 [coffee]) [], Deleted coffee).
Proof.
  assert (Hl : exists lines,
            show_entries format_2f 1
              (expenses (with_expenses tracker0 [coffee])) = Ok lines)
    by (vm_compute; eauto).
  destruct Hl as [lines Hl].
  exact (proj1 (add_then_delete_last format_2f tracker0 "2024-01-05" "Food" "3.50"
                  "coffee" (with_expenses tracker0 [coffee]) coffee lines
                  eq_refl Hl)).
Defined.

Lemma ViewExpenses_lines_witness :
  exists lines,
    ViewExpenses format_2f ledger3 = Ok lines /\ length lines = 3%nat.
Proof.
  assert (Hl : exists lines, ViewExpenses format_2f ledger3 = Ok lines)
    by (vm_compute; eauto).
  destruct Hl as [lines Hl]. exists lines. split; [exact Hl|].
  exact (proj1 (ViewExpenses_lines format_2f ledger3 lines Hl)).
Defined.

(** Adding a record adds its amount to the total, in float arithmetic:
    the total after a successful add is the total before plus the amount
    of the record. *)
Theorem total_after_add self in_date in_category in_amount in_description
    self' e :
  AddExpenseInteractive self in_date in_category in_amount in_description
  = Ok (self', Added e) ->
  CalculateTotalExpenses self'
  = fadd (CalculateTotalExpenses self) (amount e).
Proof.
  intros Hadd. rewrite AddExpenseInteractive_spec in Hadd.
  destruct (ValidateExpenseData _ _) as [[msg|]|err]; try discriminate.
  injection Hadd as <- <-. unfold CalculateTotalExpenses.
  cbn [expenses with_expenses]. now rewrite fold_left_app.
Qed.

Lemma total_after_add_witness :
  CalculateTotalExpenses (with_expenses tracker0 [coffee])
  = fadd (CalculateTotalExpenses tracker0) (amount coffee).
Proof.
  exact (total_after_add tracker0 "2024-01-05" "Food" "3.50" "coffee"
           (with_expenses tracker0 [coffee]) coffee eq_refl).
Defined.


End LedgerOperations.
